(** * Recommender system for network security management

    A shallow embedding of the recommender's comparator and console
    printer ([Comparators/os_comparator.py], [RecommenderIO/stdout.py])
    together with the graph traversal, ranking and single-component
    comparison that the specification describes, and the properties
    that relate them.

    Conventions.
    - Python [float] scores (partial similarity, risk) are carried as
      rationals [Q]; the two float-specific builtins the printer uses,
      [round(x, ndigits)] and [str(x)], stay abstract.
    - A method that mutates its argument returns the updated value.
    - Methods of [StdoutPrinter] run in a state-and-exception monad over
      the printer's fields and the text written to standard output; a
      raised exception keeps every mutation done before it. *)

From Stdlib Require Import ZArith QArith String Ascii DecimalString.
From stdpp Require Import base list strings gmap sorting.

Set Default Proof Using "Type".

(** ** Data model *)

(** [part] of a platform identifier. *)
Inductive Part := PartOs | PartHardware | PartApplication.

(** CPE-style platform identifier; [None] is an absent (wildcard) field. *)
Record Cpe := mkCpe {
  part : Part;
  vendor : option string;
  product : option string;
  version : option string
}.

(** A warning entry: description and the partial similarity behind it. *)
Definition Warning : Type := string * Q.

(** Host addresses are ordered numerically. *)
Definition Ip : Type := N.

Record Host := mkHost {
  ip : Ip;
  domains : list string;
  contacts : list string;
  os_component : Cpe;
  sw_components : list Cpe;
  risk : Q;
  warnings : list Warning
}.

Definition set_warnings (host : Host) (ws : list Warning) : Host :=
  {| ip := ip host; domains := domains host; contacts := contacts host;
     os_component := os_component host; sw_components := sw_components host;
     risk := risk host; warnings := ws |}.

(** ** Comparators *)

Module CpeComparator.

(** Field weights and the credit given to a present-versus-absent pair. *)
Record Config := mkConfig {
  vendor_weight : Q;
  product_weight : Q;
  version_weight : Q;
  absent_credit : Q
}.

Definition suggested_config : Config :=
  {| vendor_weight := 4 # 10; product_weight := 4 # 10;
     version_weight := 2 # 10; absent_credit := 1 |}.

(** A configuration is valid when the field weights add up to one. *)
Definition valid_config (cfg : Config) : Prop :=
  (vendor_weight cfg + product_weight cfg + version_weight cfg == 1)%Q.

Inductive FieldMatch := FieldEqual | FieldPartial | FieldDifferent.

(** Field rule of the data model: equal or both absent, present against
    absent, present against a different value. *)
Definition compare_field (a b : option string) : FieldMatch :=
  match a, b with
  | None, None => FieldEqual
  | Some x, Some y => if decide (x = y) then FieldEqual else FieldDifferent
  | _, _ => FieldPartial
  end.

Definition field_score (cfg : Config) (m : FieldMatch) : Q :=
  match m with
  | FieldEqual => 1
  | FieldPartial => absent_credit cfg
  | FieldDifferent => 0
  end.

Definition field_differs (m : FieldMatch) : bool :=
  match m with FieldDifferent => true | _ => false end.

(** Modelled from the spec: [CpeComparator._compare_sw_components], whose
    source is not among the files modelled here.  Section 4.1: the similarity of a
    single component is the weighted sum of the field scores, discounted
    to 0 on a critical mismatch; the result is critical whenever vendor
    or product differ. *)
Definition compare_sw_components (cfg : Config) (reference candidate : Cpe)
    : Q * bool :=
  let mv := compare_field (vendor reference) (vendor candidate) in
  let mp := compare_field (product reference) (product candidate) in
  let mver := compare_field (version reference) (version candidate) in
  let critical := field_differs mv || field_differs mp in
  let weighted := (vendor_weight cfg * field_score cfg mv
                   + product_weight cfg * field_score cfg mp
                   + version_weight cfg * field_score cfg mver)%Q in
  (if critical then 0%Q else weighted, critical).

(** Modelled from the spec: [CpeComparator._add_warning_message], whose
    source is not among the files modelled here.  Section 4.3: a warning entry is
    the description together with the partial similarity that triggered
    it, appended after the entries already recorded. *)
Definition add_warning_message (host : Host) (message : string)
    (partial_similarity : Q) : Host :=
  set_warnings host (warnings host ++ [(message, partial_similarity)]).

End CpeComparator.

Module OsComparator.
Import CpeComparator.

Section Methods.
(** The inherited comparison and [str] of a component. *)
Variable _compare_sw_components : Cpe → Cpe → Q * bool.
Variable str_component : Cpe → string.

(** [OsComparator.calc_partial_similarity]: the returned similarity
    and the candidate host as the call leaves it. *)
Definition calc_partial_similarity (reference_host host : Host) : Q * Host :=
  let '(partial_similarity, critical) :=
    _compare_sw_components (os_component reference_host) (os_component host) in
  let host :=
    if critical
    then add_warning_message host (str_component (os_component host))
           partial_similarity
    else host in
  (partial_similarity, host).
End Methods.

End OsComparator.

(** ** Python builtins used by the printer *)

Definition LF : string := String "010"%char EmptyString.

(** [n * s] for a string [s]. *)
Fixpoint str_repeat (s : string) (n : nat) : string :=
  match n with
  | O => EmptyString
  | S n' => s +:+ str_repeat s n'
  end.

(** [str.center(s, width)] with the default fill character. *)
Definition center (s : string) (width : nat) : string :=
  let marg := width - String.length s in
  let left := marg / 2 + (if Nat.odd marg && Nat.odd width then 1 else 0) in
  str_repeat " " left +:+ s +:+ str_repeat " " (marg - left).

(** [str(n)] for an integer. *)
Definition str_int (n : Z) : string := NilZero.string_of_int (Z.to_int n).

(** [max(l, key=key)]: the first element whose key is largest; [None]
    stands for the [ValueError] raised on an empty sequence. *)
Definition py_max {A} (key : A → nat) (l : list A) : option A :=
  match l with
  | [] => None
  | x :: xs =>
      Some (fold_left (λ best y, if key best <? key y then y else best) xs x)
  end.

(** [l[:stop]]; a negative [stop] counts from the end. *)
Definition slice_to {A} (l : list A) (stop : option Z) : list A :=
  match stop with
  | None => l
  | Some n =>
      if (0 <=? n)%Z then take (Z.to_nat n) l
      else take (length l - Z.to_nat (- n)) l
  end.

(** Conversions whose result depends on classes defined elsewhere
    ([str] of a host, of an address and of a warning entry) or on float
    formatting ([round], [str] of a float). *)
Class Builtins := {
  str_host : Host → string;
  str_ip : Ip → string;
  round : Q → Z → Q;
  str_float : Q → string;
  str_warning : Warning → string
}.

(** ** Console printer *)

Module StdoutPrinter.

Definition esc (code : string) : string := String (ascii_of_nat 27) code.

Definition PINK : string := esc "[95m".
Definition BLUE : string := esc "[94m".
Definition CYAN : string := esc "[96m".
Definition GREEN : string := esc "[92m".
Definition YELLOW : string := esc "[93m".
Definition RED : string := esc "[91m".
Definition END : string := esc "[0m".
Definition BOLD : string := esc "[1m".
Definition UNDERLINE : string := esc "[4m".

(** The instance attributes. *)
Record Printer := mkPrinter {
  limit : option Z;
  verbose : bool;
  headers : list string;
  widths : list nat
}.

Definition __init__ (limit : option Z) (verbose : bool) : Printer :=
  {| limit := limit; verbose := verbose;
     headers := ["IP ADDRESS"; "DOMAIN(S)"; "CONTACT(S)"; "RISK"];
     widths := [20; 0; 0; 10] |}.

Inductive Exception := IndexError | ValueError.

Inductive Outcome (A : Type) :=
  | Returned (a : A)
  | Raised (e : Exception).
Arguments Returned {A} a.
Arguments Raised {A} e.

(** One call of [print]: the text and the [end] written after it. *)
Definition Write : Type := string * string.

(** A method maps the printer to its outcome, the printer as the call
    leaves it, and the [print] calls it made, in order. *)
Definition M (A : Type) : Type := Printer → Outcome A * Printer * list Write.

#[export] Instance M_ret : MRet M := λ A a self, (Returned a, self, []).

#[export] Instance M_bind : MBind M := λ A B f m self,
  match m self with
  | (Returned a, self', out) =>
      let '(r, self'', out') := f a self' in (r, self'', out ++ out')
  | (Raised e, self', out) => (Raised e, self', out)
  end.

Definition raise {A} (e : Exception) : M A := λ self, (Raised e, self, []).
Definition get_self : M Printer := λ self, (Returned self, self, []).
Definition put_self (self' : Printer) : M unit := λ _, (Returned tt, self', []).

Definition outcome {A} (r : Outcome A * Printer * list Write) : Outcome A := r.1.1.
Definition printer_after {A} (r : Outcome A * Printer * list Write) : Printer := r.1.2.
Definition written {A} (r : Outcome A * Printer * list Write) : list Write := r.2.

(** The characters that reach standard output. *)
Definition text (out : list Write) : string :=
  foldr (λ w rest, w.1 +:+ w.2 +:+ rest) EmptyString out.

(** Number of [print] calls that end their line. *)
Definition line_count (out : list Write) : nat :=
  length (filter (λ w, w.2 = LF) out).

(** [runs m self a out]: from [self], [m] returns [a], leaves the printer
    as it was and makes the [print] calls [out]. *)
Definition runs {A} (m : M A) (self : Printer) (a : A) (out : list Write) : Prop :=
  m self = (Returned a, self, out).

(** [print(s, end=e)] and [print(s)]. *)
Definition print_end (s e : string) : M unit := λ self, (Returned tt, self, [(s, e)]).
Definition print (s : string) : M unit := print_end s LF.

(** [for x in l: body]. *)
Fixpoint for_each {A} (l : list A) (body : A → M unit) : M unit :=
  match l with
  | [] => mret tt
  | x :: l' => body x ;; for_each l' body
  end.

(** [l[i]] for [i >= 0]. *)
Definition getitem {A} (l : list A) (i : nat) : M A :=
  match l !! i with
  | Some x => mret x
  | None => raise IndexError
  end.

(** [self.__widths[i] = v]. *)
Definition set_width (i v : nat) : M unit :=
  self ← get_self;
  if decide (i < length (widths self))
  then put_self {| limit := limit self; verbose := verbose self;
                   headers := headers self; widths := <[i:=v]> (widths self) |}
  else raise IndexError.

(** [self.__widths[i]]. *)
Definition get_width (i : nat) : M nat :=
  self ← get_self; getitem (widths self) i.

Section Methods.
Context `{Builtins}.

(** [print_attacked_host]. *)
Definition print_attacked_host (host : Host) : M unit :=
  print (BLUE +:+ BOLD +:+ "ATTACKED HOST:" +:+ END) ;;
  print (str_host host) ;;
  print "".

(** [print_number_of_hosts]. *)
Definition print_number_of_hosts (number_of_hosts max_distance : Z) : M unit :=
  self ← get_self;
  print (BLUE +:+ "Found " +:+ str_int number_of_hosts
         +:+ " hosts to maximum distance of " +:+ str_int max_distance +:+ ":") ;;
  (match limit self with
   | Some l =>
       if (l <? number_of_hosts)%Z
       then print (BLUE +:+ "Displaying " +:+ str_int l +:+ " hosts.")
       else mret tt
   | None => mret tt
   end) ;;
  print "".

(** One iteration of the loop of [__calc_column_widths] over the
    running maxima [(len_contact, len_domain, len_warning)]. *)
Definition calc_column_widths_step (verbose : bool) (acc : nat * nat * nat)
    (host : Host) : M (nat * nat * nat) :=
  let '(len_contact, len_domain, len_warning) := acc in
  longest_domain ← (match py_max String.length (domains host) with
                    | Some d => mret d
                    | None => raise ValueError
                    end);
  let current_longest := String.length longest_domain in
  let len_domain :=
    if len_domain <? current_longest then current_longest else len_domain in
  longest_contact ← (match py_max String.length (contacts host) with
                     | Some c => mret c
                     | None => raise ValueError
                     end);
  let current_longest := String.length longest_contact in
  let len_contact :=
    if len_contact <? current_longest then current_longest else len_contact in
  let len_warning :=
    if verbose then
      match py_max (λ x, String.length (str_warning x)) (warnings host) with
      | Some w =>
          let current_longest := String.length (str_warning w) in
          if len_warning <? current_longest then current_longest
          else len_warning
      | None => len_warning
      end
    else len_warning in
  mret (len_contact, len_domain, len_warning).

Fixpoint calc_column_widths_loop (verbose : bool) (acc : nat * nat * nat)
    (host_list : list Host) : M (nat * nat * nat) :=
  match host_list with
  | [] => mret acc
  | host :: rest =>
      acc' ← calc_column_widths_step verbose acc host;
      calc_column_widths_loop verbose acc' rest
  end.

(** [__calc_column_widths]. *)
Definition __calc_column_widths (host_list : list Host) : M unit :=
  self ← get_self;
  '(len_contact, len_domain, len_warning) ←
    calc_column_widths_loop (verbose self) (0, 0, 0) host_list;
  set_width 1 (len_domain + 2) ;;
  set_width 2 (len_contact + 2) ;;
  if verbose self then set_width 4 (len_warning + 2) else mret tt.

(** [__print_horizontal_separator]. *)
Definition __print_horizontal_separator (color : string) : M unit :=
  print_end color "" ;;
  self ← get_self;
  for_each (widths self) (λ width, print_end ("+" +:+ str_repeat "-" width) "") ;;
  print ("+" +:+ END).

(** [__print_host_list_header]. *)
Definition __print_host_list_header (color : string) : M unit :=
  print_end (color +:+ BOLD) "" ;;
  self ← get_self;
  for_each (zip (headers self) (widths self))
    (λ hw, print_end (" " +:+ center hw.1 hw.2) "") ;;
  print END.

(** The body of the loop over the continuation rows of a host. *)
Definition print_host_row (host : Host) (i : nat) : M unit :=
  self ← get_self;
  w0 ← get_width 0;
  print_end ("|" +:+ str_repeat " " w0 +:+ "|") "" ;;
  (if decide (i < length (domains host))
   then d ← getitem (domains host) i; w1 ← get_width 1;
        print_end (center d w1 +:+ "|") ""
   else w1 ← get_width 1; print_end (str_repeat " " w1 +:+ "|") "") ;;
  (if decide (i < length (contacts host))
   then c ← getitem (contacts host) i; w2 ← get_width 2;
        print_end (center c w2 +:+ "|") ""
   else w2 ← get_width 2; print_end (str_repeat " " w2 +:+ "|") "") ;;
  w3 ← get_width 3;
  print_end (str_repeat " " w3 +:+ "|") "" ;;
  if verbose self && bool_decide (i < length (warnings host))
  then w ← getitem (warnings host) i; w4 ← get_width 4;
       print (center (str_warning w) w4 +:+ "|")
  else if verbose self
  then w4 ← get_width 4; print (str_repeat " " w4 +:+ "|")
  else print "".

(** Number of continuation rows of a host. *)
Definition extra_rows (verbose : bool) (host : Host) : nat :=
  (if verbose
   then Nat.max (Nat.max (length (domains host)) (length (warnings host)))
          (length (contacts host))
   else Nat.max (length (domains host)) (length (contacts host))) - 1.

(** The cells of the first row of a host: the local [print_items] of
    [__print_host_in_table] once the warning cell is appended. *)
Definition print_items (verbose : bool) (host : Host)
    (domain0 contact0 : string) : list string :=
  let print_items :=
    [str_ip (ip host); domain0; contact0; str_float (round (risk host) 4)] in
  match warnings host with
  | w :: _ => if verbose then print_items ++ [str_warning w] else print_items
  | [] => if verbose then print_items ++ [EmptyString] else print_items
  end.

(** [__print_host_in_table]. *)
Definition __print_host_in_table (host : Host) (color : string) : M unit :=
  print_end (color +:+ "|") "" ;;
  self ← get_self;
  domain0 ← getitem (domains host) 0;
  contact0 ← getitem (contacts host) 0;
  let print_items := print_items (verbose self) host domain0 contact0 in
  for_each (zip print_items (widths self))
    (λ iw, print_end (YELLOW +:+ center iw.1 iw.2 +:+ "|") "") ;;
  (if bool_decide (1 < length (domains host))
      || bool_decide (0 ≠ length (contacts host))
      || (bool_decide (1 < length (warnings host)) && verbose self)
   then print "" ;;
        for_each (seq 1 (extra_rows (verbose self) host)) (print_host_row host)
   else print "") ;;
  print_end END "".

(** The verbose branch of [print_host_list]: one more header and one
    more width. *)
Definition add_verbose_column : M unit :=
  self ← get_self;
  if verbose self
  then put_self {| limit := limit self; verbose := verbose self;
                   headers := headers self ++ ["SIMILARITIES"];
                   widths := widths self ++ [0] |}
  else mret tt.

(** [print_host_list]. *)
Definition print_host_list (host_list : list Host) : M unit :=
  self ← get_self;
  let list_slice := slice_to host_list (limit self) in
  add_verbose_column ;;
  __calc_column_widths host_list ;;
  let table_color := YELLOW in
  __print_host_list_header BLUE ;;
  __print_horizontal_separator table_color ;;
  for_each list_slice (λ host,
    __print_host_in_table host table_color ;;
    __print_horizontal_separator YELLOW).
End Methods.

(** [same_columns self self']: the two printers differ at most in the
    widths of the columns after the first, the RISK column apart. *)
Definition same_columns (self self' : Printer) : Prop :=
  limit self' = limit self ∧ verbose self' = verbose self
  ∧ headers self' = headers self
  ∧ length (widths self') = length (widths self)
  ∧ widths self' !! 0 = widths self !! 0
  ∧ widths self' !! 3 = widths self !! 3.

(** [keeps m]: whatever its outcome, [m] leaves a printer with the same
    columns. *)
Definition keeps {A} (m : M A) : Prop :=
  ∀ self, same_columns self (printer_after (m self)).

(** The hosts the printer is meant for: at least one domain and one
    contact each. *)
Definition printable (host : Host) : Prop :=
  domains host ≠ [] ∧ contacts host ≠ [].

(** The fourth column is the RISK column, ten characters wide. *)
Definition columns_ok (self : Printer) : Prop :=
  headers self !! 3 = Some "RISK" ∧ widths self !! 3 = Some 10
  ∧ 4 ≤ length (widths self).

(** The printer as [print_host_list] has it when it prints the rows: in
    verbose mode the fifth column exists. *)
Definition table_ready (self : Printer) : Prop :=
  columns_ok self ∧ (verbose self = true → 5 ≤ length (widths self)).

(** Assignments to the public attributes. *)
Definition set_limit (self : Printer) (l : option Z) : Printer :=
  {| limit := l; verbose := verbose self; headers := headers self;
     widths := widths self |}.

Definition set_verbose (self : Printer) (v : bool) : Printer :=
  {| limit := limit self; verbose := v; headers := headers self;
     widths := widths self |}.

(** The states a printer can be in: constructed, then used through its
    public methods and attributes. *)
Inductive reachable `{Builtins} : Printer → Prop :=
  | reachable_init l v : reachable (__init__ l v)
  | reachable_set_limit self l : reachable self → reachable (set_limit self l)
  | reachable_set_verbose self v :
      reachable self → reachable (set_verbose self v)
  | reachable_print_attacked_host self host :
      reachable self →
      reachable (printer_after (print_attacked_host host self))
  | reachable_print_number_of_hosts self n d :
      reachable self →
      reachable (printer_after (print_number_of_hosts n d self))
  | reachable_print_host_list self host_list :
      reachable self →
      reachable (printer_after (print_host_list host_list self)).

(** The printer after a sequence of [print_host_list] calls, one per
    host list, whatever the outcome of each call. *)
Definition call_print_host_list `{Builtins} (self : Printer)
    (calls : list (list Host)) : Printer :=
  fold_left (λ self host_list, printer_after (print_host_list host_list self))
    calls self.

(** [agree m1 m2]: the two computations do the same from every printer
    that is not verbose. *)
Definition agree {A} (m1 m2 : M A) : Prop :=
  ∀ self, verbose self = false → m1 self = m2 self.

(** [quiet m]: from a printer that is not verbose, [m] leaves one that is
    not verbose. *)
Definition quiet {A} (m : M A) : Prop :=
  ∀ self, verbose self = false → verbose (printer_after (m self)) = false.

(** The length of the longest of some texts, 0 when there is none. *)
Definition widest (texts : list string) : nat :=
  max_list (String.length <$> texts).

(** The width [__calc_column_widths] gives the DOMAIN(S), CONTACT(S) and
    SIMILARITIES columns for a host list: the longest entry of the whole
    list and a margin of two. *)
Definition domain_width (host_list : list Host) : nat :=
  widest (host_list ≫= domains) + 2.

Definition contact_width (host_list : list Host) : nat :=
  widest (host_list ≫= contacts) + 2.

Definition warning_width `{Builtins} (host_list : list Host) : nat :=
  widest (str_warning <$> (host_list ≫= warnings)) + 2.

(** The printer with its columns sized for a host list. *)
Definition sized `{Builtins} (self : Printer) (host_list : list Host)
    : Printer :=
  {| limit := limit self; verbose := verbose self; headers := headers self;
     widths :=
       (if verbose self then <[4:=warning_width host_list]> else id)
         (<[2:=contact_width host_list]>
            (<[1:=domain_width host_list]> (widths self))) |}.

End StdoutPrinter.

(** ** Graph traversal *)

Module GraphTraverser.

(** Adjacency lists, in the order the edges of a node are enumerated. *)
Abbreviation Topology := (gmap Ip (list Ip)).

Definition neighbours (topology : Topology) (node : Ip) : list Ip :=
  default [] (topology !! node).

(** Enumerate the edges of one node: every neighbour not yet visited is
    marked visited and queued, in order. *)
Fixpoint visit_neighbours (vs : list Ip) (acc : gset Ip * list Ip)
    : gset Ip * list Ip :=
  match vs with
  | [] => acc
  | v :: vs' =>
      visit_neighbours vs'
        (if decide (v ∈ acc.1) then acc else ({[v]} ∪ acc.1, acc.2 ++ [v]))
  end.

(** Dequeue the nodes of one distance level, in order. *)
Fixpoint expand (topology : Topology) (frontier : list Ip)
    (acc : gset Ip * list Ip) : gset Ip * list Ip :=
  match frontier with
  | [] => acc
  | u :: rest =>
      expand topology rest (visit_neighbours (neighbours topology u) acc)
  end.

(** The levels after [dist], as long as [remaining] hops are allowed. *)
Fixpoint levels (topology : Topology) (visited : gset Ip) (frontier : list Ip)
    (dist remaining : nat) : list (Ip * nat) :=
  match remaining with
  | O => []
  | S remaining' =>
      let '(visited', next) := expand topology frontier (visited, []) in
      ((λ v, (v, S dist)) <$> next)
        ++ levels topology visited' next (S dist) remaining'
  end.

(** Modelled from the spec: [GraphTraverser.discover], whose source is
    not among the files modelled here.  Section 4.2: breadth-first search from the
    reference node with a visited set, nodes in non-decreasing distance
    and, within a distance, in the order their discovering parent
    enumerates them; [maxDistance] is inclusive and the reference node is
    not part of the result.  The queue is processed one distance level at
    a time. *)
Definition discover (topology : Topology) (referenceNode : Ip)
    (maxDistance : nat) : list (Ip * nat) :=
  levels topology {[referenceNode]} [referenceNode] 0 maxDistance.

(** [walk topology r k v]: [v] is reached from [r] along [k] edges. *)
Inductive walk (topology : Topology) (r : Ip) : nat → Ip → Prop :=
  | walk_here : walk topology r 0 r
  | walk_step k u v :
      walk topology r k u → v ∈ neighbours topology u →
      walk topology r (S k) v.

(** [v] is at most [i] edges away from [r]. *)
Definition within (topology : Topology) (r : Ip) (i : nat) (v : Ip) : Prop :=
  ∃ k, k ≤ i ∧ walk topology r k v.

(** [k] is the shortest-path distance of [v] from [r]. *)
Definition distance (topology : Topology) (r v : Ip) (k : nat) : Prop :=
  walk topology r k v ∧ ∀ j, j < k → ¬ walk topology r j v.

End GraphTraverser.

(** ** Ranking *)

Module Recommender.

(** [a] is ranked no later than [b]: higher risk first, then lower
    address. *)
Definition ranks_before (a b : Host) : Prop :=
  (risk b < risk a)%Q ∨ ((risk a == risk b)%Q ∧ (ip a ≤ ip b)%N).

#[export] Instance ranks_before_dec (a b : Host) : Decision (ranks_before a b).
Proof. unfold ranks_before, Qlt, Qeq. apply _. Defined.

(** Modelled from the spec: the ranking step of [Recommender.recommend],
    whose source is not among the files modelled here.  Section 4.4: candidates
    are sorted by risk descending, ties broken by ascending ip. *)
Definition rank (candidates : list Host) : list Host :=
  merge_sort ranks_before candidates.

(** Modelled from the spec: the result of [Recommender.recommend] for
    already scored candidates, the full candidate count together with
    the ranked list cut to [limit] entries when a limit is given. *)
Definition recommend (candidates : list Host) (limit : option nat)
    : nat * list Host :=
  let ranked := rank candidates in
  (length ranked, match limit with Some n => take n ranked | None => ranked end).

End Recommender.

(** ** Scenario data *)

Module Scenario.

Definition acme_linux : Cpe :=
  {| part := PartOs; vendor := Some "acme"; product := Some "linux";
     version := Some "5.1" |}.

Definition acme_windows : Cpe :=
  {| part := PartOs; vendor := Some "acme"; product := Some "windows";
     version := Some "10" |}.

(** [vendor:product:version], absent fields as [*]. *)
Definition str_component (c : Cpe) : string :=
  default "*" (vendor c) +:+ ":" +:+ default "*" (product c)
    +:+ ":" +:+ default "*" (version c).


Definition candidate_a : Host :=
  {| ip := 2%N; domains := ["a.example.org"]; contacts := ["a@example.org"];
     os_component := acme_linux; sw_components := []; risk := 3 # 4;
     warnings := [] |}.

Definition candidate_b : Host :=
  {| ip := 3%N; domains := ["b.example.org"; "bb.example.org"];
     contacts := ["b@example.org"];
     os_component := acme_windows; sw_components := []; risk := 1 # 4;
     warnings := [("acme:windows:10", 0%Q); ("acme:office:7", 0%Q)] |}.

Definition candidate_c : Host :=
  {| ip := 4%N; domains := ["c.example.org"]; contacts := ["c@example.org"];
     os_component := acme_linux; sw_components := []; risk := 3 # 4;
     warnings := [] |}.

(** The chain 1 - 2 - 3 - 4. *)
Definition chain : GraphTraverser.Topology :=
  list_to_map [(1%N, [2%N]); (2%N, [1%N; 3%N]); (3%N, [2%N; 4%N]); (4%N, [3%N])].

(** Stand-ins for the abstract conversions. *)
Definition plain_builtins : Builtins :=
  {| str_host := λ host, str_int (Z.of_N (ip host));
     str_ip := λ a, str_int (Z.of_N a);
     round := λ x _, x;
     str_float := λ x, str_int (Qnum x) +:+ "/" +:+ str_int (Zpos (Qden x));
     str_warning := λ w, w.1 |}.

(** A verbose printer as [print_host_list] has it while it prints rows. *)
Definition verbose_table : StdoutPrinter.Printer :=
  {| StdoutPrinter.limit := Some 1%Z; StdoutPrinter.verbose := true;
     StdoutPrinter.headers :=
       ["IP ADDRESS"; "DOMAIN(S)"; "CONTACT(S)"; "RISK"; "SIMILARITIES"];
     StdoutPrinter.widths := [20; 16; 15; 10; 17] |}.


(** A host record without any domain. *)
Definition nameless : Host :=
  {| ip := 5%N; domains := []; contacts := ["e@example.org"];
     os_component := acme_linux; sw_components := []; risk := 1 # 2;
     warnings := [] |}.

End Scenario.

(** * Properties *)

(** ** Comparators *)

Section ComparatorFacts.
Import CpeComparator OsComparator.

Lemma compare_field_same (a : option string) : compare_field a a = FieldEqual.
Proof. destruct a as [x|]; simpl; [by rewrite decide_True|done]. Qed.

Lemma compare_identical (cfg : Config) (a b : Cpe) :
  vendor a = vendor b → product a = product b → version a = version b →
  compare_sw_components cfg a b
  = ((vendor_weight cfg * 1 + product_weight cfg * 1 + version_weight cfg * 1)%Q,
     false).
Proof.
  intros Hv Hp Hver. unfold compare_sw_components.
  rewrite Hv, Hp, Hver, !compare_field_same. reflexivity.
Qed.

(** C7: identifiers with identical vendor, product and version compare
    with similarity exactly 1 and are not critical, for every valid
    configuration of the field weights. *)
Theorem compare_identical_is_one (cfg : Config) (a b : Cpe) :
  valid_config cfg →
  vendor a = vendor b → product a = product b → version a = version b →
  ((compare_sw_components cfg a b).1 == 1)%Q
  ∧ (compare_sw_components cfg a b).2 = false.
Proof.
  intros Hcfg Hv Hp Hver. rewrite (compare_identical cfg a b Hv Hp Hver).
  split; [|reflexivity]. simpl. rewrite !Qmult_1_r. exact Hcfg.
Qed.

Lemma compare_identical_is_one_witness :
  ((compare_sw_components suggested_config Scenario.acme_linux
      Scenario.acme_linux).1 == 1)%Q
  ∧ (compare_sw_components suggested_config Scenario.acme_linux
       Scenario.acme_linux).2 = false.
Proof.
  apply (compare_identical_is_one suggested_config Scenario.acme_linux
           Scenario.acme_linux); reflexivity.
Defined.

Lemma calc_partial_similarity_unfold (cmp : Cpe → Cpe → Q * bool)
    (str : Cpe → string) (reference_host host : Host) :
  calc_partial_similarity cmp str reference_host host
  = let res := cmp (os_component reference_host) (os_component host) in
    (res.1,
     if res.2
     then add_warning_message host (str (os_component host)) res.1
     else host).
Proof.
  unfold calc_partial_similarity.
  by destruct (cmp (os_component reference_host) (os_component host)) as [? []].
Qed.

(** C4: the call appends exactly one warning entry, made of the
    description of the candidate's OS component and the partial
    similarity, when the comparison is critical, and none otherwise. *)
Theorem calc_partial_similarity_warns_iff_critical
    (cmp : Cpe → Cpe → Q * bool) (str : Cpe → string)
    (reference_host host : Host) :
  let res := cmp (os_component reference_host) (os_component host) in
  let host' := (calc_partial_similarity cmp str reference_host host).2 in
  (res.2 = true ↔
     warnings host' = warnings host ++ [(str (os_component host), res.1)])
  ∧ (res.2 = false ↔ warnings host' = warnings host).
Proof.
  intros res host'. subst host'. rewrite calc_partial_similarity_unfold.
  fold res. simpl. destruct (res.2) eqn:Hc; simpl.
  - split; split; try done.
    intros Heq. apply (f_equal length) in Heq.
    rewrite length_app in Heq. simpl in Heq. lia.
  - split; split; try done.
    intros Heq. apply (f_equal length) in Heq.
    rewrite length_app in Heq. simpl in Heq. lia.
Qed.




End ComparatorFacts.

(** ** Console printer: running a method *)

Section PrinterRuns.
Import StdoutPrinter.
Context `{Builtins}.

Lemma bind_returned {A B} (m : M A) (f : A → M B) self a self' out :
  m self = (Returned a, self', out) →
  (m ≫= f) self
  = (outcome (f a self'), printer_after (f a self'), out ++ written (f a self')).
Proof.
  intros Hm. unfold mbind, M_bind. rewrite Hm.
  by destruct (f a self') as [[r p] o].
Qed.

Lemma bind_raised {A B} (m : M A) (f : A → M B) self e self' out :
  m self = (Raised e, self', out) → (m ≫= f) self = (Raised e, self', out).
Proof. intros Hm. unfold mbind, M_bind. by rewrite Hm. Qed.

Lemma runs_ret {A} (a : A) self : runs (mret a) self a [].
Proof. done. Qed.

Lemma runs_bind {A B} (m : M A) (f : A → M B) self a b out1 out2 :
  runs m self a out1 → runs (f a) self b out2 →
  runs (m ≫= f) self b (out1 ++ out2).
Proof.
  unfold runs. intros Hm Hf. rewrite (bind_returned _ _ _ _ _ _ Hm), Hf. done.
Qed.

Lemma runs_get_self self : runs get_self self self [].
Proof. done. Qed.

Lemma runs_print_end s e self : runs (print_end s e) self tt [(s, e)].
Proof. done. Qed.

Lemma runs_print s self : runs (print s) self tt [(s, LF)].
Proof. done. Qed.

Lemma runs_getitem {A} (l : list A) i x self :
  l !! i = Some x → runs (getitem l i) self x [].
Proof. intros Hl. unfold getitem. by rewrite Hl. Qed.

Lemma runs_get_width i w self :
  widths self !! i = Some w → runs (get_width i) self w [].
Proof.
  intros Hw. unfold get_width.
  apply (runs_bind _ _ _ self _ [] []); [apply runs_get_self|].
  by apply runs_getitem.
Qed.

Lemma runs_for_each {A} (l : list A) (body : A → M unit)
    (g : A → list Write) self :
  (∀ x, x ∈ l → runs (body x) self tt (g x)) →
  runs (for_each l body) self tt (concat (g <$> l)).
Proof.
  induction l as [|x l IH]; intros Hbody; simpl; [done|].
  apply (runs_bind _ _ _ tt).
  - apply Hbody. left.
  - apply IH. intros y Hy. apply Hbody. by right.
Qed.

Lemma line_count_app out1 out2 :
  line_count (out1 ++ out2) = line_count out1 + line_count out2.
Proof. unfold line_count. by rewrite filter_app, length_app. Qed.

Lemma line_count_silent {A} (f : A → string) (l : list A) :
  line_count ((λ x, (f x, EmptyString)) <$> l) = 0.
Proof.
  induction l as [|x l IH]; [done|].
  unfold line_count in *. simpl. by rewrite filter_cons_False.
Qed.

Lemma line_count_cons_silent s out :
  line_count ((s, EmptyString) :: out) = line_count out.
Proof. unfold line_count. by rewrite filter_cons_False. Qed.

Lemma line_count_cons_line s out :
  line_count ((s, LF) :: out) = S (line_count out).
Proof. unfold line_count. by rewrite filter_cons_True. Qed.

Lemma line_count_concat {A} (g : A → list Write) (l : list A) :
  (∀ x, x ∈ l → line_count (g x) = 1) →
  line_count (concat (g <$> l)) = length l.
Proof.
  induction l as [|x l IH]; intros Hg; simpl; [done|].
  rewrite line_count_app, Hg by left. simpl. f_equal.
  apply IH. intros y Hy. apply Hg. by right.
Qed.

End PrinterRuns.

(** ** Console printer: what a call leaves of the printer *)

Create HintDb keeps.

Section PrinterFrame.
Import StdoutPrinter.
Context `{Builtins}.

Lemma same_columns_refl self : same_columns self self.
Proof. by repeat split. Qed.

Lemma same_columns_trans p1 p2 p3 :
  same_columns p1 p2 → same_columns p2 p3 → same_columns p1 p3.
Proof.
  intros (?&?&?&?&?&?) (?&?&?&?&?&?). repeat split; congruence.
Qed.

Lemma keeps_ret {A} (a : A) : keeps (mret a).
Proof. intros self. apply same_columns_refl. Qed.

Lemma keeps_raise {A} e : keeps (@raise A e).
Proof. intros self. apply same_columns_refl. Qed.

Lemma keeps_get_self : keeps get_self.
Proof. intros self. apply same_columns_refl. Qed.

Lemma keeps_print_end s e : keeps (print_end s e).
Proof. intros self. apply same_columns_refl. Qed.

Lemma keeps_print s : keeps (print s).
Proof. apply keeps_print_end. Qed.

Lemma keeps_bind {A B} (m : M A) (f : A → M B) :
  keeps m → (∀ a, keeps (f a)) → keeps (m ≫= f).
Proof.
  intros Hm Hf self. specialize (Hm self).
  unfold mbind, M_bind.
  destruct (m self) as [[[a|e] p1] o1]; [|exact Hm].
  specialize (Hf a p1). destruct (f a p1) as [[r p2] o2].
  exact (same_columns_trans _ _ _ Hm Hf).
Qed.

Lemma keeps_getitem {A} (l : list A) i : keeps (getitem l i).
Proof. unfold getitem. destruct (l !! i); [apply keeps_ret|apply keeps_raise]. Qed.

Lemma keeps_get_width i : keeps (get_width i).
Proof.
  apply keeps_bind; [apply keeps_get_self|]. intros. apply keeps_getitem.
Qed.

Lemma keeps_for_each {A} (l : list A) (body : A → M unit) :
  (∀ x, keeps (body x)) → keeps (for_each l body).
Proof.
  intros Hbody. induction l as [|x l IH]; simpl; [apply keeps_ret|].
  apply keeps_bind; [apply Hbody|]. intros _. exact IH.
Qed.

(** Assigning the width of a column other than the first and the RISK
    column. *)
Lemma keeps_set_width i v : i ≠ 0 → i ≠ 3 → keeps (set_width i v).
Proof.
  intros Hi0 Hi3 self. unfold set_width, mbind, M_bind, get_self. simpl.
  destruct (decide (i < length (widths self))); simpl;
    [|apply same_columns_refl].
  repeat split; simpl.
  - apply length_insert.
  - by apply list_lookup_insert_ne.
  - by apply list_lookup_insert_ne.
Qed.

#[local] Hint Resolve keeps_ret keeps_raise keeps_get_self keeps_print_end keeps_print
  keeps_getitem keeps_get_width : keeps.

Ltac keeps_tac :=
  repeat first
    [ progress auto with keeps
    | apply keeps_set_width; [done|done]
    | apply keeps_bind; [|intros ?]
    | apply keeps_for_each; intros ?
    | match goal with
      | |- keeps (if ?b then _ else _) => destruct b
      | |- keeps (match ?o with Some _ => _ | None => _ end) => destruct o
      | |- keeps (let '(_, _) := ?x in _) => destruct x
      end ].

Lemma keeps_print_attacked_host host : keeps (print_attacked_host host).
Proof. unfold print_attacked_host. keeps_tac. Qed.

Lemma keeps_print_number_of_hosts n d : keeps (print_number_of_hosts n d).
Proof. unfold print_number_of_hosts. keeps_tac. Qed.

Lemma keeps_calc_column_widths_loop v acc host_list :
  keeps (calc_column_widths_loop v acc host_list).
Proof.
  revert acc. induction host_list as [|host rest IH]; intros acc; simpl;
    [apply keeps_ret|].
  apply keeps_bind; [|intros acc'; apply IH].
  unfold calc_column_widths_step. destruct acc as [[? ?] ?]. keeps_tac.
Qed.

Lemma keeps_calc_column_widths host_list : keeps (__calc_column_widths host_list).
Proof.
  unfold __calc_column_widths.
  apply keeps_bind; [apply keeps_get_self|]. intros self.
  apply keeps_bind; [apply keeps_calc_column_widths_loop|].
  intros [[? ?] ?]. keeps_tac.
Qed.

Lemma keeps_print_horizontal_separator color :
  keeps (__print_horizontal_separator color).
Proof. unfold __print_horizontal_separator. keeps_tac. Qed.

Lemma keeps_print_host_list_header color :
  keeps (__print_host_list_header color).
Proof. unfold __print_host_list_header. keeps_tac. Qed.

Lemma keeps_print_host_row host i : keeps (print_host_row host i).
Proof. unfold print_host_row. keeps_tac. Qed.

Lemma keeps_print_host_in_table host color :
  keeps (__print_host_in_table host color).
Proof.
  unfold __print_host_in_table. keeps_tac.
Qed.

(** The part of [print_host_list] after the verbose branch. *)
Lemma keeps_print_table host_list (list_slice : list Host) :
  keeps (__calc_column_widths host_list ;;
         __print_host_list_header BLUE ;;
         __print_horizontal_separator YELLOW ;;
         for_each list_slice (λ host,
           __print_host_in_table host YELLOW ;;
           __print_horizontal_separator YELLOW)).
Proof.
  repeat first
    [ apply keeps_calc_column_widths | apply keeps_print_host_list_header
    | apply keeps_print_horizontal_separator | apply keeps_print_host_in_table
    | apply keeps_bind; [|intros ?] | apply keeps_for_each; intros ? ].
Qed.

End PrinterFrame.

(** ** Console printer: what the table methods print *)

Ltac run_step :=
  first [ apply runs_ret | apply runs_get_self | apply runs_print_end
        | apply runs_print | (apply runs_get_width; eassumption)
        | (apply runs_getitem; eassumption) ].
Ltac run_bind := eapply runs_bind; [run_step|]; simpl.

Section PrinterOutput.
Import StdoutPrinter.
Context `{Builtins}.

Lemma runs_eq {A} (m : M A) self a out out' :
  runs m self a out → out = out' → runs m self a out'.
Proof. by intros ? <-. Qed.

Lemma runs_written {A} (m : M A) self a out :
  runs m self a out →
  outcome (m self) = Returned a ∧ printer_after (m self) = self
  ∧ written (m self) = out.
Proof. unfold runs. by intros ->. Qed.

Lemma runs_for_each_print_end {A} (l : list A) (f : A → string) e self :
  runs (for_each l (λ x, print_end (f x) e)) self tt ((λ x, (f x, e)) <$> l).
Proof.
  induction l as [|x l IH]; simpl; [done|].
  apply (runs_bind _ _ _ tt tt [_]); [apply runs_print_end|exact IH].
Qed.

Lemma runs_print_horizontal_separator color self :
  runs (__print_horizontal_separator color) self tt
    ((color, EmptyString)
       :: ((λ width, ("+" +:+ str_repeat "-" width, EmptyString)) <$> widths self)
       ++ [("+" +:+ END, LF)]).
Proof.
  unfold __print_horizontal_separator. eapply runs_eq.
  - run_bind. run_bind. eapply runs_bind; [apply runs_for_each_print_end|].
    apply runs_print.
  - reflexivity.
Qed.

Lemma runs_print_host_list_header color self :
  runs (__print_host_list_header color) self tt
    ((color +:+ BOLD, EmptyString)
       :: ((λ hw, (" " +:+ center hw.1 hw.2, EmptyString))
             <$> zip (headers self) (widths self))
       ++ [(END, LF)]).
Proof.
  unfold __print_host_list_header. eapply runs_eq.
  - run_bind. run_bind. eapply runs_bind; [apply runs_for_each_print_end|].
    apply runs_print.
  - reflexivity.
Qed.

(** A cell of a continuation row: the [i]-th entry when there is one,
    blanks otherwise. *)
Lemma runs_cell (l : list string) (i k w : nat) self :
  widths self !! k = Some w →
  ∃ s, runs (if decide (i < length l)
             then d ← getitem l i; w' ← get_width k;
                  print_end (center d w' +:+ "|") ""
             else w' ← get_width k; print_end (str_repeat " " w' +:+ "|") "")
         self tt [(s, EmptyString)].
Proof.
  intros Hw. destruct (decide (i < length l)) as [Hi|Hi].
  - destruct (lookup_lt_is_Some_2 l i Hi) as [d Hd].
    eexists. eapply runs_eq; [run_bind; run_bind; run_step|reflexivity].
  - eexists. eapply runs_eq; [run_bind; run_step|reflexivity].
Qed.

Lemma runs_last_cell (l : list Warning) (i w3 : nat) self :
  widths self !! 3 = Some w3 →
  (verbose self = true → is_Some (widths self !! 4)) →
  ∃ s0 s, runs (w3 ← get_width 3;
                print_end (str_repeat " " w3 +:+ "|") "" ;;
                if verbose self && bool_decide (i < length l)
                then w ← getitem l i; w4 ← get_width 4;
                     print (center (str_warning w) w4 +:+ "|")
                else if verbose self
                then w4 ← get_width 4; print (str_repeat " " w4 +:+ "|")
                else print "")
            self tt [(s0, EmptyString); (s, LF)].
Proof.
  intros Hw3 Hw4. destruct (verbose self) eqn:Hv; simpl.
  - destruct (Hw4 eq_refl) as [w4 Hw4'].
    destruct (decide (i < length l)) as [Hi|Hi].
    + rewrite bool_decide_true by done.
      destruct (lookup_lt_is_Some_2 l i Hi) as [d Hd].
      do 2 eexists. eapply runs_eq;
        [run_bind; run_bind; run_bind; run_bind; run_step|reflexivity].
    + rewrite bool_decide_false by done.
      do 2 eexists. eapply runs_eq;
        [run_bind; run_bind; run_bind; run_step|reflexivity].
  - do 2 eexists. eapply runs_eq; [run_bind; run_bind; run_step|reflexivity].
Qed.

(** A continuation row is printed without failure and ends its line. *)
Lemma runs_print_host_row host i self :
  4 ≤ length (widths self) →
  (verbose self = true → 5 ≤ length (widths self)) →
  ∃ out, runs (print_host_row host i) self tt out ∧ line_count out = 1.
Proof.
  intros Hlen Hlenv.
  destruct (lookup_lt_is_Some_2 (widths self) 0 ltac:(lia)) as [w0 Hw0].
  destruct (lookup_lt_is_Some_2 (widths self) 1 ltac:(lia)) as [w1 Hw1].
  destruct (lookup_lt_is_Some_2 (widths self) 2 ltac:(lia)) as [w2 Hw2].
  destruct (lookup_lt_is_Some_2 (widths self) 3 ltac:(lia)) as [w3 Hw3].
  destruct (runs_cell (domains host) i 1 w1 self Hw1) as [s1 Hs1].
  destruct (runs_cell (contacts host) i 2 w2 self Hw2) as [s2 Hs2].
  destruct (runs_last_cell (warnings host) i w3 self Hw3) as (s3 & s4 & Hs4).
  { intros Hv. apply lookup_lt_is_Some_2. specialize (Hlenv Hv). lia. }
  eexists. split.
  - unfold print_host_row. eapply runs_eq.
    + run_bind. run_bind. run_bind.
      eapply runs_bind; [exact Hs1|].
      eapply runs_bind; [exact Hs2|]. exact Hs4.
    + reflexivity.
  - reflexivity.
Qed.


(** What [__print_host_in_table] prints for a host with a first domain
    and a first contact: the cells of the first row, the end of that
    row, the continuation rows and the colour reset. *)
Lemma runs_print_host_in_table host color self d c :
  domains host !! 0 = Some d → contacts host !! 0 = Some c →
  4 ≤ length (widths self) →
  (verbose self = true → 5 ≤ length (widths self)) →
  ∃ rows,
    runs (__print_host_in_table host color) self tt
      ((color +:+ "|", EmptyString)
         :: ((λ iw, (YELLOW +:+ center iw.1 iw.2 +:+ "|", EmptyString))
               <$> zip (print_items (verbose self) host d c) (widths self))
         ++ (EmptyString, LF) :: rows ++ [(END, EmptyString)])
    ∧ line_count rows = extra_rows (verbose self) host.
Proof.
  intros Hd Hc Hlen Hlenv.
  exists (concat ((λ i, written (print_host_row host i self))
                    <$> seq 1 (extra_rows (verbose self) host))).
  assert (Hrow : ∀ i, runs (print_host_row host i) self tt
                        (written (print_host_row host i self))
                      ∧ line_count (written (print_host_row host i self)) = 1).
  { intros i.
    destruct (runs_print_host_row host i self Hlen Hlenv) as (out & Hout & Hcount).
    destruct (runs_written _ _ _ _ Hout) as (_ & _ & ->). done. }
  split.
  - unfold __print_host_in_table. eapply runs_eq.
    + run_bind. run_bind. run_bind. run_bind.
      eapply runs_bind; [apply runs_for_each_print_end|].
      assert (Hcond : bool_decide (0 ≠ length (contacts host)) = true).
      { apply bool_decide_eq_true. apply lookup_lt_Some in Hc. lia. }
      rewrite Hcond, orb_true_r. simpl.
      eapply runs_bind; [|apply runs_print_end].
      eapply runs_bind; [apply runs_print|].
      apply runs_for_each. intros i _. apply Hrow.
    + simpl. by rewrite <- ?app_assoc.
  - rewrite line_count_concat, length_seq; [done|]. intros i _. apply Hrow.
Qed.

Lemma extra_rows_pos v host :
  extra_rows v host ≠ 0 ↔
    1 < length (domains host) ∨ 1 < length (contacts host)
    ∨ (v = true ∧ 1 < length (warnings host)).
Proof.
  unfold extra_rows.
  destruct v; (split; [intros ?|intros [?|[?|[? ?]]]]); try done; lia.
Qed.

Lemma printable_lookup host :
  printable host →
  ∃ d c, domains host !! 0 = Some d ∧ contacts host !! 0 = Some c.
Proof.
  intros [Hd Hc]. destruct (domains host) as [|d ?]; [done|].
  destruct (contacts host) as [|c ?]; [done|]. by exists d, c.
Qed.

Lemma print_host_in_table_line_count host color self :
  printable host → 4 ≤ length (widths self) →
  (verbose self = true → 5 ≤ length (widths self)) →
  outcome (__print_host_in_table host color self) = Returned tt
  ∧ printer_after (__print_host_in_table host color self) = self
  ∧ line_count (written (__print_host_in_table host color self))
    = S (extra_rows (verbose self) host).
Proof.
  intros Hp Hlen Hlenv. destruct (printable_lookup host Hp) as (d & c & Hd & Hc).
  destruct (runs_print_host_in_table host color self d c Hd Hc Hlen Hlenv)
    as (rows & Hruns & Hrows).
  destruct (runs_written _ _ _ _ Hruns) as (-> & -> & ->).
  split; [done|]. split; [done|].
  rewrite line_count_cons_silent, line_count_app, line_count_silent.
  rewrite line_count_cons_line, line_count_app, Hrows.
  rewrite line_count_cons_silent. simpl. unfold line_count. simpl. lia.
Qed.

End PrinterOutput.

(** ** Console printer: the column widths and the whole table *)

Section PrinterWidths.
Import StdoutPrinter.
Context `{Builtins}.

Lemma py_max_is_Some {A} (key : A → nat) (l : list A) :
  l ≠ [] → is_Some (py_max key l).
Proof. destruct l; [done|]. intros _. by eexists. Qed.

Lemma py_max_None {A} (key : A → nat) (l : list A) :
  py_max key l = None ↔ l = [].
Proof. by destruct l. Qed.

Lemma runs_calc_column_widths_step v acc host self :
  printable host →
  ∃ acc', runs (calc_column_widths_step v acc host) self acc' [].
Proof.
  intros [Hd Hc].
  destruct (py_max_is_Some String.length _ Hd) as [d Hmd].
  destruct (py_max_is_Some String.length _ Hc) as [c Hmc].
  destruct acc as [[lc ld] lw].
  unfold calc_column_widths_step, runs. rewrite Hmd, Hmc.
  eexists. reflexivity.
Qed.

Lemma runs_calc_column_widths_loop v acc host_list self :
  Forall printable host_list →
  ∃ acc', runs (calc_column_widths_loop v acc host_list) self acc' [].
Proof.
  intros Hall. revert acc.
  induction Hall as [|host rest Hhost _ IH]; intros acc; simpl.
  - by exists acc.
  - destruct (runs_calc_column_widths_step v acc host self Hhost) as [acc1 H1].
    destruct (IH acc1) as [acc2 H2]. exists acc2.
    by apply (runs_bind _ _ _ acc1 acc2 [] []).
Qed.

Lemma set_width_returns i v self :
  i < length (widths self) →
  set_width i v self
  = (Returned tt,
     {| limit := limit self; verbose := verbose self; headers := headers self;
        widths := <[i:=v]> (widths self) |}, []).
Proof.
  intros Hi. unfold set_width, mbind, M_bind, get_self.
  by rewrite decide_True.
Qed.

(** With printable hosts and the columns in place, the width
    computation returns and prints nothing. *)
Lemma calc_column_widths_returns host_list self :
  Forall printable host_list →
  3 ≤ length (widths self) →
  (verbose self = true → 5 ≤ length (widths self)) →
  ∃ self', __calc_column_widths host_list self = (Returned tt, self', []).
Proof.
  intros Hall Hlen Hlenv.
  destruct (runs_calc_column_widths_loop (verbose self) (0, 0, 0) host_list
              self Hall) as [[[lc ld] lw] Hloop].
  unfold __calc_column_widths.
  rewrite (bind_returned _ _ _ _ _ _ (runs_get_self self)).
  rewrite (bind_returned _ _ _ _ _ _ Hloop).
  rewrite (bind_returned _ _ _ _ _ _ (set_width_returns 1 (ld + 2) self ltac:(lia))).
  erewrite (bind_returned (set_width 2 _));
    [|apply set_width_returns; simpl; rewrite length_insert; lia].
  simpl. destruct (verbose self) eqn:Hv.
  - rewrite set_width_returns by (simpl; rewrite !length_insert; lia).
    by eexists.
  - by eexists.
Qed.

End PrinterWidths.

(** ** Console printer: [print_host_list] as a whole *)

Section PrinterCalls.
Import StdoutPrinter.
Context `{Builtins}.

Lemma add_verbose_column_eq self :
  add_verbose_column self
  = (Returned tt,
     if verbose self
     then {| limit := limit self; verbose := verbose self;
             headers := headers self ++ ["SIMILARITIES"];
             widths := widths self ++ [0] |}
     else self, []).
Proof. unfold add_verbose_column, mbind, M_bind, get_self. by destruct (verbose self). Qed.

Lemma add_verbose_column_fields self :
  let self' := printer_after (add_verbose_column self) in
  limit self' = limit self ∧ verbose self' = verbose self
  ∧ headers self'
    = headers self ++ (if verbose self then ["SIMILARITIES"] else [])
  ∧ length (widths self')
    = length (widths self) + (if verbose self then 1 else 0).
Proof.
  rewrite add_verbose_column_eq. unfold printer_after. simpl.
  destruct (verbose self) eqn:Hv; simpl.
  - rewrite length_app. simpl. done.
  - rewrite app_nil_r. repeat split; [done|lia].
Qed.

Lemma add_verbose_column_ready self :
  columns_ok self → table_ready (printer_after (add_verbose_column self)).
Proof.
  intros (Hh & Hw & Hlen). rewrite add_verbose_column_eq.
  unfold printer_after. simpl. destruct (verbose self) eqn:Hv.
  - split; [split; [|split]|]; simpl.
    + by apply lookup_app_l_Some.
    + by apply lookup_app_l_Some.
    + rewrite length_app. lia.
    + intros _. rewrite length_app. simpl. lia.
  - split; [done|]. congruence.
Qed.

Lemma same_columns_ok p1 p2 : same_columns p1 p2 → columns_ok p1 → columns_ok p2.
Proof.
  intros (_ & _ & Hh & Hlen & _ & Hw3) (? & ? & ?).
  repeat split; congruence.
Qed.

Lemma same_columns_ready p1 p2 :
  same_columns p1 p2 → table_ready p1 → table_ready p2.
Proof.
  intros Hsame [Hok Hv]. split; [by apply (same_columns_ok p1)|].
  destruct Hsame as (_ & Hverb & _ & Hlen & _). rewrite Hverb, Hlen. exact Hv.
Qed.

(** Whatever the outcome of [print_host_list], the printer it leaves is
    the one after the verbose branch up to the column widths. *)
Lemma print_host_list_columns host_list self :
  same_columns (printer_after (add_verbose_column self))
    (printer_after (print_host_list host_list self)).
Proof.
  unfold print_host_list.
  rewrite (bind_returned _ _ _ _ _ _ (runs_get_self self)).
  rewrite (bind_returned _ _ _ _ _ _ (add_verbose_column_eq self)).
  rewrite add_verbose_column_eq. unfold printer_after at 1 2. simpl.
  apply keeps_print_table.
Qed.

Lemma reachable_columns_ok self : reachable self → columns_ok self.
Proof.
  induction 1 as [l v|self l _ IH|self v _ IH|self host _ IH|self n d _ IH
                 |self hosts _ IH].
  - by repeat split.
  - exact IH.
  - exact IH.
  - exact (same_columns_ok _ _ (keeps_print_attacked_host host self) IH).
  - exact (same_columns_ok _ _ (keeps_print_number_of_hosts n d self) IH).
  - apply (same_columns_ok _ _ (print_host_list_columns hosts self)).
    apply add_verbose_column_ready, IH.
Qed.

Lemma slice_to_subset {A} (l : list A) stop x : x ∈ slice_to l stop → x ∈ l.
Proof.
  unfold slice_to. destruct stop as [n|]; [|done].
  destruct (0 <=? n)%Z; apply subseteq_take.
Qed.

(** With printable hosts the whole of [print_host_list] returns: the
    widths are computed, then the header, a separator and, for each
    host of the slice, its rows and a separator are printed. *)
Lemma print_host_list_returns host_list self :
  Forall printable host_list → columns_ok self →
  ∃ self',
    table_ready self'
    ∧ __calc_column_widths host_list (printer_after (add_verbose_column self))
      = (Returned tt, self', [])
    ∧ print_host_list host_list self
      = (Returned tt, self',
         written (__print_host_list_header BLUE self')
         ++ written (__print_horizontal_separator YELLOW self')
         ++ concat ((λ host,
                       written (__print_host_in_table host YELLOW self')
                       ++ written (__print_horizontal_separator YELLOW self'))
                      <$> slice_to host_list (limit self))).
Proof.
  intros Hall Hok.
  pose proof (add_verbose_column_ready self Hok) as Hready1.
  set (p1 := printer_after (add_verbose_column self)) in *.
  destruct (calc_column_widths_returns host_list p1 Hall) as [p2 Hcalc].
  { destruct Hready1 as [(_ & _ & ?) _]. lia. }
  { apply Hready1. }
  assert (Hsame : same_columns p1 p2).
  { pose proof (keeps_calc_column_widths host_list p1) as Hk.
    by rewrite Hcalc in Hk. }
  pose proof (same_columns_ready _ _ Hsame Hready1) as Hready2.
  exists p2. split; [done|]. split; [done|].
  assert (Hrest : runs (__print_host_list_header BLUE ;;
                        __print_horizontal_separator YELLOW ;;
                        for_each (slice_to host_list (limit self)) (λ host,
                          __print_host_in_table host YELLOW ;;
                          __print_horizontal_separator YELLOW)) p2 tt
            (written (__print_host_list_header BLUE p2)
             ++ written (__print_horizontal_separator YELLOW p2)
             ++ concat ((λ host,
                           written (__print_host_in_table host YELLOW p2)
                           ++ written (__print_horizontal_separator YELLOW p2))
                          <$> slice_to host_list (limit self)))).
  { pose proof (runs_print_host_list_header BLUE p2) as Hhead.
    pose proof (runs_print_horizontal_separator YELLOW p2) as Hsep.
    destruct (runs_written _ _ _ _ Hhead) as (_ & _ & ->).
    destruct (runs_written _ _ _ _ Hsep) as (_ & _ & ->).
    eapply runs_bind; [exact Hhead|]. eapply runs_bind; [exact Hsep|].
    apply runs_for_each. intros host Hhost.
    apply slice_to_subset in Hhost.
    rewrite Forall_forall in Hall. specialize (Hall host Hhost).
    destruct Hready2 as [(_ & _ & Hlen) Hlenv].
    destruct (printable_lookup host Hall) as (d & c & Hd & Hc).
    destruct (runs_print_host_in_table host YELLOW p2 d c Hd Hc Hlen Hlenv)
      as (rows & Hruns & _).
    destruct (runs_written _ _ _ _ Hruns) as (_ & _ & ->).
    eapply runs_bind; [exact Hruns|exact Hsep]. }
  unfold print_host_list.
  rewrite (bind_returned _ _ _ _ _ _ (runs_get_self self)).
  rewrite (bind_returned _ _ _ _ _ _ (add_verbose_column_eq self)).
  fold p1. replace (if verbose self then _ else self) with p1
    by (unfold p1; by rewrite add_verbose_column_eq).
  rewrite (bind_returned _ _ _ _ _ _ Hcalc).
  unfold runs in Hrest. rewrite Hrest. done.
Qed.

End PrinterCalls.

(** ** Console printer: the rows of a host *)

Section PrinterRows.
Import StdoutPrinter.
Context `{Builtins}.

(** C3: a host is printed without failure, and its rows go beyond the
    first exactly when it has more than one domain, more than one
    contact or, in verbose mode, more than one warning; with one
    domain, one contact and at most one warning it takes one row. *)
Theorem print_host_in_table_extra_rows host color self :
  table_ready self → printable host →
  outcome (__print_host_in_table host color self) = Returned tt
  ∧ (1 < line_count (written (__print_host_in_table host color self)) ↔
       1 < length (domains host) ∨ 1 < length (contacts host)
       ∨ (verbose self = true ∧ 1 < length (warnings host)))
  ∧ (length (domains host) = 1 → length (contacts host) = 1 →
     length (warnings host) ≤ 1 →
     line_count (written (__print_host_in_table host color self)) = 1).
Proof.
  intros [(_ & _ & Hlen) Hlenv] Hhost.
  destruct (print_host_in_table_line_count host color self Hhost Hlen Hlenv)
    as (Hout & _ & Hcount).
  split; [exact Hout|]. rewrite Hcount. split.
  - rewrite <- extra_rows_pos. lia.
  - intros Hd Hc Hw. f_equal.
    destruct (decide (extra_rows (verbose self) host = 0)) as [|Hne]; [done|].
    apply extra_rows_pos in Hne. lia.
Qed.

(** C8: the fifth [print] of a host's first row, the cell under the
    RISK header, is the risk rounded to 4 decimals, centred in the ten
    characters of that column. *)
Theorem print_host_in_table_risk_cell host color self :
  table_ready self → printable host →
  written (__print_host_list_header color self) !! 4
  = Some (" " +:+ center "RISK" 10, EmptyString)
  ∧ written (__print_host_in_table host color self) !! 4
    = Some (YELLOW +:+ center (str_float (round (risk host) 4)) 10 +:+ "|",
            EmptyString).
Proof.
  intros [(Hh & Hw & Hlen) Hlenv] Hhost. split.
  - destruct (runs_written _ _ _ _ (runs_print_host_list_header color self))
      as (_ & _ & ->).
    change ((?x :: ?l) !! 4) with (l !! 3).
    rewrite lookup_app_l.
    + rewrite list_lookup_fmap.
      rewrite (proj2 (lookup_zip_Some _ _ 3 _ _) (conj Hh Hw)). done.
    + rewrite length_fmap. apply lookup_lt_is_Some.
      rewrite (proj2 (lookup_zip_Some _ _ 3 _ _) (conj Hh Hw)). by eexists.
  - destruct (printable_lookup host Hhost) as (d & c & Hd & Hc).
    destruct (runs_print_host_in_table host color self d c Hd Hc Hlen Hlenv)
      as (rows & Hruns & _).
    destruct (runs_written _ _ _ _ Hruns) as (_ & _ & ->).
    change ((?x :: ?l) !! 4) with (l !! 3).
    assert (Hitem : print_items (verbose self) host d c !! 3
                    = Some (str_float (round (risk host) 4))).
    { unfold print_items. by destruct (warnings host), (verbose self). }
    rewrite lookup_app_l.
    + rewrite list_lookup_fmap.
      rewrite (proj2 (lookup_zip_Some _ _ 3 _ _) (conj Hitem Hw)). done.
    + rewrite length_fmap. apply lookup_lt_is_Some.
      rewrite (proj2 (lookup_zip_Some _ _ 3 _ _) (conj Hitem Hw)). by eexists.
Qed.

End PrinterRows.

Lemma verbose_table_ready : StdoutPrinter.table_ready Scenario.verbose_table.
Proof.
  split; [split; [done|split; [done|simpl; lia]]|intros _; simpl; lia].
Qed.

Lemma candidate_b_printable : StdoutPrinter.printable Scenario.candidate_b.
Proof. by split. Qed.

Lemma print_host_in_table_extra_rows_witness :
  1 < StdoutPrinter.line_count
        (StdoutPrinter.written
           (@StdoutPrinter.__print_host_in_table Scenario.plain_builtins
              Scenario.candidate_b StdoutPrinter.YELLOW Scenario.verbose_table)).
Proof.
  apply (@print_host_in_table_extra_rows Scenario.plain_builtins
           Scenario.candidate_b StdoutPrinter.YELLOW Scenario.verbose_table
           verbose_table_ready candidate_b_printable).
  left. simpl. lia.
Defined.

Lemma print_host_in_table_risk_cell_witness :
  StdoutPrinter.written
    (@StdoutPrinter.__print_host_in_table Scenario.plain_builtins
       Scenario.candidate_b StdoutPrinter.YELLOW Scenario.verbose_table) !! 4
  = Some (StdoutPrinter.YELLOW +:+ center "1/4" 10 +:+ "|", EmptyString).
Proof.
  apply (@print_host_in_table_risk_cell Scenario.plain_builtins
           Scenario.candidate_b StdoutPrinter.YELLOW Scenario.verbose_table
           verbose_table_ready candidate_b_printable).
Defined.

(** ** Console printer: summary, table and repeated calls *)

Section PrinterClaims.
Import StdoutPrinter.
Context `{Builtins}.

Lemma slice_to_take {A} (l : list A) (n : Z) :
  (0 ≤ n)%Z → slice_to l (Some n) = take (Z.to_nat n) l.
Proof. intros Hn. unfold slice_to. by rewrite (proj2 (Z.leb_le 0 n) Hn). Qed.

(** C1: the summary names the count it is given, here the length of the
    whole host list, whatever the limit; the table has the rows of the
    hosts of [host_list[:limit]] only, the first [limit] hosts for a
    limit that is not negative and every host without a limit. *)
Theorem limit_keeps_reported_count self host_list max_distance :
  reachable self → Forall printable host_list →
  written (print_number_of_hosts (Z.of_nat (length host_list)) max_distance
             self) !! 0
  = Some (BLUE +:+ "Found " +:+ str_int (Z.of_nat (length host_list))
          +:+ " hosts to maximum distance of " +:+ str_int max_distance
          +:+ ":", LF)
  ∧ (∃ self',
       print_host_list host_list self
       = (Returned tt, self',
          written (__print_host_list_header BLUE self')
          ++ written (__print_horizontal_separator YELLOW self')
          ++ concat ((λ host,
                        written (__print_host_in_table host YELLOW self')
                        ++ written (__print_horizontal_separator YELLOW self'))
                       <$> slice_to host_list (limit self))))
  ∧ (∀ l, limit self = Some l → (0 ≤ l)%Z →
       slice_to host_list (limit self) = take (Z.to_nat l) host_list)
  ∧ (limit self = None → slice_to host_list (limit self) = host_list).
Proof.
  intros Hreach Hall. split; [|split; [|split]].
  - unfold print_number_of_hosts.
    rewrite (bind_returned _ _ _ _ _ _ (runs_get_self self)).
    erewrite bind_returned by apply runs_print. done.
  - destruct (print_host_list_returns host_list self Hall
                (reachable_columns_ok self Hreach)) as (self' & _ & _ & Heq).
    by exists self'.
  - intros l -> Hl. by apply slice_to_take.
  - by intros ->.
Qed.

(** C9: for hosts that each have a domain and a contact, the longest
    domain and the longest contact of every host are defined, the
    width computation of [print_host_list] returns, and so does the
    call as a whole. *)
Theorem print_host_list_total self host_list :
  reachable self → Forall printable host_list →
  Forall (λ host, is_Some (py_max String.length (domains host))
                  ∧ is_Some (py_max String.length (contacts host))) host_list
  ∧ outcome (__calc_column_widths host_list
               (printer_after (add_verbose_column self))) = Returned tt
  ∧ outcome (print_host_list host_list self) = Returned tt.
Proof.
  intros Hreach Hall. split; [|split].
  - eapply Forall_impl; [exact Hall|]. intros host [Hd Hc].
    split; by apply py_max_is_Some.
  - destruct (print_host_list_returns host_list self Hall
                (reachable_columns_ok self Hreach)) as (self' & _ & -> & _).
    done.
  - destruct (print_host_list_returns host_list self Hall
                (reachable_columns_ok self Hreach)) as (self' & _ & _ & ->).
    done.
Qed.

Lemma print_host_list_fields host_list self :
  let self' := printer_after (print_host_list host_list self) in
  verbose self' = verbose self
  ∧ headers self'
    = headers self ++ (if verbose self then ["SIMILARITIES"] else [])
  ∧ length (widths self')
    = length (widths self) + (if verbose self then 1 else 0).
Proof.
  intros self'.
  destruct (print_host_list_columns host_list self)
    as (_ & Hv & Hh & Hlen & _).
  destruct (add_verbose_column_fields self) as (_ & Hv1 & Hh1 & Hlen1).
  subst self'. split; [congruence|]. split; congruence.
Qed.

Lemma call_print_host_list_fields self calls :
  verbose self = true →
  let self' := call_print_host_list self calls in
  verbose self' = true
  ∧ headers self' = headers self ++ replicate (length calls) "SIMILARITIES"
  ∧ length (widths self') = length (widths self) + length calls.
Proof.
  revert self. induction calls as [|host_list calls IH]; intros self Hv; simpl.
  - rewrite app_nil_r. split; [done|]. split; [done|lia].
  - destruct (print_host_list_fields host_list self) as (Hv1 & Hh1 & Hlen1).
    rewrite Hv in Hv1, Hh1, Hlen1.
    destruct (IH _ Hv1) as (Hv2 & Hh2 & Hlen2).
    unfold call_print_host_list in *. simpl.
    split; [exact Hv2|]. split.
    + rewrite Hh2, Hh1, <- app_assoc. done.
    + rewrite Hlen2, Hlen1. lia.
Qed.

(** C10: in verbose mode every call of [print_host_list], whatever its
    outcome, leaves one more SIMILARITIES header and one more width, so
    that after [n] calls the printer has [n] of each on top of the four
    columns it was built with, and the header row has a cell for each. *)
Theorem print_host_list_appends_column (limit : option Z)
    (calls : list (list Host)) (color : string) :
  headers (call_print_host_list (__init__ limit true) calls)
  = ["IP ADDRESS"; "DOMAIN(S)"; "CONTACT(S)"; "RISK"]
    ++ replicate (length calls) "SIMILARITIES"
  ∧ length (widths (call_print_host_list (__init__ limit true) calls))
    = 4 + length calls
  ∧ written (__print_host_list_header color
               (call_print_host_list (__init__ limit true) calls))
    = (color +:+ BOLD, EmptyString)
      :: ((λ hw, (" " +:+ center hw.1 hw.2, EmptyString))
            <$> zip (["IP ADDRESS"; "DOMAIN(S)"; "CONTACT(S)"; "RISK"]
                     ++ replicate (length calls) "SIMILARITIES")
                  (widths (call_print_host_list (__init__ limit true) calls)))
      ++ [(END, LF)].
Proof.
  destruct (call_print_host_list_fields (__init__ limit true) calls eq_refl)
    as (_ & Hh & Hlen).
  split; [exact Hh|]. split; [exact Hlen|].
  destruct (runs_written _ _ _ _
              (runs_print_host_list_header color
                 (call_print_host_list (__init__ limit true) calls)))
    as (_ & _ & ->).
  by rewrite Hh.
Qed.

End PrinterClaims.

Lemma scenario_hosts_printable :
  Forall StdoutPrinter.printable
    [Scenario.candidate_a; Scenario.candidate_b; Scenario.candidate_c].
Proof. repeat constructor; done. Qed.

Lemma limit_keeps_reported_count_witness :
  StdoutPrinter.written
    (StdoutPrinter.print_number_of_hosts 3 2
       (StdoutPrinter.__init__ (Some 1%Z) false)) !! 0
  = Some (StdoutPrinter.BLUE +:+ "Found 3 hosts to maximum distance of 2:", LF).
Proof.
  apply (@limit_keeps_reported_count Scenario.plain_builtins
           (StdoutPrinter.__init__ (Some 1%Z) false)
           [Scenario.candidate_a; Scenario.candidate_b; Scenario.candidate_c]
           2 (StdoutPrinter.reachable_init (Some 1%Z) false)
           scenario_hosts_printable).
Defined.

Lemma print_host_list_total_witness :
  StdoutPrinter.outcome
    (@StdoutPrinter.print_host_list Scenario.plain_builtins
       [Scenario.candidate_a; Scenario.candidate_b; Scenario.candidate_c]
       (StdoutPrinter.__init__ (Some 1%Z) true))
  = StdoutPrinter.Returned tt.
Proof.
  apply (@print_host_list_total Scenario.plain_builtins
           (StdoutPrinter.__init__ (Some 1%Z) true)
           [Scenario.candidate_a; Scenario.candidate_b; Scenario.candidate_c]
           (StdoutPrinter.reachable_init (Some 1%Z) true)
           scenario_hosts_printable).
Defined.

(** ** Graph traversal *)

Section TraverserFacts.
Import GraphTraverser.
Implicit Types (topology : Topology) (r v : Ip) (visited : gset Ip).
#[local] Set Warnings "-clear-no-such-hyp".

Lemma walk_0 topology r v : walk topology r 0 v ↔ v = r.
Proof. split; [by inversion 1|intros ->; constructor]. Qed.

Lemma distance_unique topology r v k1 k2 :
  distance topology r v k1 → distance topology r v k2 → k1 = k2.
Proof.
  intros [Hw1 Hmin1] [Hw2 Hmin2].
  destruct (Nat.lt_trichotomy k1 k2) as [Hlt|[Heq|Hgt]]; [|done|].
  - destruct (Hmin2 k1 Hlt Hw1).
  - destruct (Hmin1 k2 Hgt Hw2).
Qed.

Lemma visit_neighbours_spec (vs : list Ip) (acc : gset Ip * list Ip) :
  (visit_neighbours vs acc).1 = acc.1 ∪ list_to_set vs
  ∧ ∃ new, (visit_neighbours vs acc).2 = acc.2 ++ new ∧ NoDup new
           ∧ ∀ v, v ∈ new ↔ v ∈ vs ∧ v ∉ acc.1.
Proof.
  revert acc. induction vs as [|v vs IH]; intros acc; simpl.
  - split; [set_solver|]. exists []. rewrite app_nil_r.
    split; [done|]. split; [constructor|]. set_solver.
  - destruct (decide (v ∈ acc.1)) as [Hin|Hnin].
    + destruct (IH acc) as (Hset & new & Hnew & Hdup & Hmem).
      split; [set_solver|]. exists new. split; [done|]. split; [done|].
      intros v'. rewrite Hmem. set_solver.
    + destruct (IH ({[v]} ∪ acc.1, acc.2 ++ [v]))
        as (Hset & new & Hnew & Hdup & Hmem). simpl in *.
      split; [set_solver|]. exists (v :: new). split.
      { by rewrite Hnew, <- app_assoc. }
      split.
      { constructor; [|done]. rewrite Hmem. set_solver. }
      intros v'. rewrite elem_of_cons, Hmem.
      destruct (decide (v' = v)) as [->|]; set_solver.
Qed.

Lemma expand_spec topology (frontier : list Ip) (acc : gset Ip * list Ip) :
  (∀ v, v ∈ (expand topology frontier acc).1 ↔
        v ∈ acc.1 ∨ ∃ u, u ∈ frontier ∧ v ∈ neighbours topology u)
  ∧ ∃ new, (expand topology frontier acc).2 = acc.2 ++ new ∧ NoDup new
           ∧ ∀ v, v ∈ new ↔
                  (v ∉ acc.1) ∧ ∃ u, u ∈ frontier ∧ v ∈ neighbours topology u.
Proof.
  revert acc. induction frontier as [|u rest IH]; intros acc; simpl.
  - split; [set_solver|]. exists []. rewrite app_nil_r.
    split; [done|]. split; [constructor|]. set_solver.
  - destruct (visit_neighbours_spec (neighbours topology u) acc)
      as (Hset1 & new1 & Hnew1 & Hdup1 & Hmem1).
    destruct (IH (visit_neighbours (neighbours topology u) acc))
      as (Hset2 & new2 & Hnew2 & Hdup2 & Hmem2).
    split.
    + intros v. rewrite Hset2, Hset1. set_solver.
    + exists (new1 ++ new2). split.
      { by rewrite Hnew2, Hnew1, <- app_assoc. }
      split.
      { apply NoDup_app. split; [done|]. split; [|done].
        intros v Hv1 Hv2. apply Hmem2 in Hv2 as [Hnot _].
        apply Hnot. rewrite Hset1. apply Hmem1 in Hv1. set_solver. }
      intros v. rewrite elem_of_app, Hmem1, Hmem2, Hset1.
      destruct (decide (v ∈ neighbours topology u)); set_solver.
Qed.

(** One level further: the nodes found are those at the next distance,
    and the visited set grows to the nodes within it. *)
Lemma expand_level topology r visited (frontier : list Ip) dist :
  (∀ v, v ∈ visited ↔ within topology r dist v) →
  (∀ v, v ∈ frontier ↔ distance topology r v dist) →
  (∀ v, v ∈ (expand topology frontier (visited, [])).1 ↔ within topology r (S dist) v)
  ∧ NoDup (expand topology frontier (visited, [])).2
  ∧ (∀ v, v ∈ (expand topology frontier (visited, [])).2 ↔
          distance topology r v (S dist)).
Proof.
  intros Hvis Hfr.
  destruct (expand_spec topology frontier (visited, []))
    as (Hset & new & Hnew & Hdup & Hmem). simpl in *. subst new.
  assert (Hnext : ∀ v, v ∉ visited →
            (∃ u, u ∈ frontier ∧ v ∈ neighbours topology u) ↔
            walk topology r (S dist) v).
  { intros v Hv. split.
    - intros (u & Hu & Huv). apply Hfr in Hu as [Hu _].
      by apply (walk_step _ _ _ u).
    - inversion 1 as [|k u v' Hu Huv]; subst. exists u. split; [|done].
      apply Hfr. split; [done|]. intros j Hj Hwj. apply Hv, Hvis.
      exists (S j). split; [lia|]. by apply (walk_step _ _ _ u). }
  split; [|split; [done|]].
  - intros v. rewrite Hset. destruct (decide (v ∈ visited)) as [Hv|Hv].
    + split; [intros _|by left]. apply Hvis in Hv as (k & Hk & Hw).
      exists k. split; [lia|done].
    + rewrite (Hnext v Hv). split.
      * intros [?|Hw]; [done|]. by exists (S dist).
      * intros (k & Hk & Hw). right.
        destruct (decide (k = S dist)) as [->|]; [done|].
        destruct Hv. apply Hvis. exists k. split; [lia|done].
  - intros v. rewrite Hmem. split.
    + intros [Hv Hex]. split; [by apply (Hnext v Hv)|].
      intros j Hj Hwj. apply Hv, Hvis. exists j. split; [lia|done].
    + intros [Hw Hmin].
      assert (Hv : v ∉ visited).
      { intros (k & Hk & Hwk)%Hvis. apply (Hmin k); [lia|done]. }
      split; [done|]. by apply (Hnext v Hv).
Qed.

End TraverserFacts.

Section TraverserLevels.
Import GraphTraverser.
Implicit Types (topology : Topology) (r v : Ip) (visited : gset Ip).
#[local] Set Warnings "-clear-no-such-hyp".

Lemma fmap_fst_label (next : list Ip) (k : nat) :
  ((λ v, (v, k)) <$> next).*1 = next.
Proof. induction next as [|v next IH]; [done|]. csimpl. by f_equal. Qed.

(** The levels after [dist]: every labelled node is at its distance from
    [r], within the bound; every unvisited node within the bound is
    listed; no node is listed twice. *)
Lemma levels_spec topology r remaining :
  ∀ dist visited (frontier : list Ip),
    (∀ v, v ∈ visited ↔ within topology r dist v) →
    (∀ v, v ∈ frontier ↔ distance topology r v dist) →
    (∀ v k, (v, k) ∈ levels topology visited frontier dist remaining →
            dist < k ≤ dist + remaining ∧ distance topology r v k)
    ∧ (∀ v, within topology r (dist + remaining) v → v ∉ visited →
            ∃ k, (v, k) ∈ levels topology visited frontier dist remaining)
    ∧ NoDup (levels topology visited frontier dist remaining).*1.
Proof.
  induction remaining as [|rem IH]; intros dist visited frontier Hvis Hfr; simpl.
  - split; [intros v k Hin; by apply elem_of_nil in Hin|].
    split; [|constructor]. intros v (k & Hk & Hw) Hv. destruct Hv.
    apply Hvis. exists k. split; [lia|done].
  - destruct (expand_level topology r visited frontier dist Hvis Hfr)
      as (Hvis' & Hdup & Hnext).
    destruct (expand topology frontier (visited, [])) as [visited' next].
    simpl in *.
    destruct (IH (S dist) visited' next Hvis' Hnext) as (Hsound & Hcompl & Hnodup).
    split; [|split].
    + intros v k [Hin|Hin]%elem_of_app.
      * apply list_elem_of_fmap in Hin as (v' & Heq & Hv'). simplify_eq.
        split; [lia|]. by apply Hnext.
      * destruct (Hsound v k Hin). split; [lia|done].
    + intros v Hw Hv. destruct (decide (v ∈ visited')) as [Hv'|Hv'].
      * exists (S dist). apply elem_of_app. left. apply list_elem_of_fmap.
        exists v. split; [done|]. apply Hnext.
        apply Hvis' in Hv' as (k & Hk & Hwk).
        assert (Hmin : ∀ j, j < S dist → ¬ walk topology r j v).
        { intros j Hj Hwj. apply Hv, Hvis. exists j. split; [lia|done]. }
        destruct (decide (k = S dist)) as [->|]; [done|].
        destruct (Hmin k); [lia|done].
      * destruct (Hcompl v) as [k Hk]; [|done|].
        { by replace (S dist + rem) with (dist + S rem) by lia. }
        exists k. apply elem_of_app. by right.
    + rewrite fmap_app, fmap_fst_label. apply NoDup_app.
      split; [done|]. split; [|done].
      intros v Hv1 Hv2. apply Hnext in Hv1.
      apply list_elem_of_fmap in Hv2 as ([v' k] & -> & Hin). simpl in *.
      destruct (Hsound v' k Hin) as [Hk Hd].
      pose proof (distance_unique _ _ _ _ _ Hv1 Hd). lia.
Qed.

Lemma discover_spec topology r d :
  (∀ v k, (v, k) ∈ discover topology r d →
          0 < k ≤ d ∧ distance topology r v k)
  ∧ (∀ v, within topology r d v → v ≠ r → ∃ k, (v, k) ∈ discover topology r d)
  ∧ NoDup (discover topology r d).*1.
Proof.
  destruct (levels_spec topology r d 0 {[r]} [r]) as (Hsound & Hcompl & Hnodup).
  - intros v. rewrite elem_of_singleton. split.
    + intros ->. exists 0. split; [done|constructor].
    + intros (k & Hk & Hw). apply (walk_0 topology r v).
      by replace k with 0 in Hw by lia.
  - intros v. rewrite list_elem_of_singleton. split.
    + intros ->. split; [constructor|]. intros j Hj. lia.
    + intros [Hw _]. by apply (walk_0 topology r v).
  - split; [exact Hsound|]. split; [|exact Hnodup].
    intros v Hw Hne. apply Hcompl; [done|]. by rewrite elem_of_singleton.
Qed.

Lemma distance_not_reference topology r v k :
  0 < k → distance topology r v k → v ≠ r.
Proof. intros Hk [_ Hmin] ->. apply (Hmin 0 Hk). constructor. Qed.

(** C5: [discover] lists a node with label [k] exactly when [k], between
    1 and [maxDistance], is the shortest-path distance of the node from
    the reference node; so it lists exactly the nodes other than the
    reference node within [maxDistance] edges of it, never the reference
    node, and no node twice. *)
Theorem discover_exactly_within_bound topology (referenceNode : Ip)
    (maxDistance : nat) :
  (∀ v k, (v, k) ∈ discover topology referenceNode maxDistance ↔
          1 ≤ k ≤ maxDistance ∧ distance topology referenceNode v k)
  ∧ (∀ v, v ∈ (discover topology referenceNode maxDistance).*1 ↔
          v ≠ referenceNode ∧ within topology referenceNode maxDistance v)
  ∧ (referenceNode ∉ (discover topology referenceNode maxDistance).*1)
  ∧ NoDup (discover topology referenceNode maxDistance).*1.
Proof.
  destruct (discover_spec topology referenceNode maxDistance)
    as (Hsound & Hcompl & Hnodup).
  assert (Hfst : ∀ v, v ∈ (discover topology referenceNode maxDistance).*1 ↔
                      v ≠ referenceNode
                      ∧ within topology referenceNode maxDistance v).
  { intros v. split.
    - intros ([v' k] & -> & Hin)%list_elem_of_fmap. simpl.
      destruct (Hsound v' k Hin) as [Hk Hd]. split.
      + by apply (distance_not_reference topology referenceNode v' k); [lia|].
      + exists k. split; [lia|apply Hd].
    - intros [Hne Hw]. destruct (Hcompl v Hw Hne) as [k Hk].
      apply list_elem_of_fmap. by exists (v, k). }
  split; [|split; [exact Hfst|split; [|exact Hnodup]]].
  - intros v k. split; [intros Hin; destruct (Hsound v k Hin); split; [lia|done]|].
    intros [Hk Hd].
    destruct (Hcompl v) as [k' Hk'].
    + exists k. split; [lia|apply Hd].
    + by apply (distance_not_reference topology referenceNode v k); [lia|].
    + destruct (Hsound v k' Hk') as [_ Hd'].
      by rewrite (distance_unique _ _ _ _ _ Hd Hd').
  - intros [Hne _]%Hfst. done.
Qed.

(** The chain of the specification: from node 1 and within two hops,
    nodes 2 and 3 at distances 1 and 2; node 4 is left out. *)
Example discover_chain :
  discover Scenario.chain 1%N 2 = [(2%N, 1); (3%N, 2)].
Proof. by vm_compute. Qed.

End TraverserLevels.

(** ** Ranking *)

Section RankingFacts.
Import Recommender.

#[local] Instance ranks_before_total : Total ranks_before.
Proof.
  intros a b. unfold ranks_before.
  destruct (Q_dec (risk a) (risk b)) as [[Hlt|Hgt]|Heq].
  - right. by left.
  - left. by left.
  - destruct (N.le_ge_cases (ip a) (ip b)) as [Hle|Hge].
    + left. right. by split.
    + right. right. split; [by symmetry|done].
Qed.

#[local] Instance ranks_before_trans : Transitive ranks_before.
Proof.
  intros a b c [H1|[E1 L1]] [H2|[E2 L2]].
  - left. by apply (Qlt_trans _ (risk b)).
  - left. by rewrite <- E2.
  - left. by rewrite E1.
  - right. split; [by rewrite E1|]. by apply (N.le_trans _ (ip b)).
Qed.

Lemma ranks_before_antisym a b :
  ranks_before a b → ranks_before b a → ip a = ip b.
Proof.
  intros [H1|[E1 L1]] [H2|[E2 L2]].
  - destruct (Qlt_irrefl (risk a)). by apply (Qlt_trans _ (risk b)).
  - rewrite E2 in H1. destruct (Qlt_irrefl _ H1).
  - rewrite E1 in H2. destruct (Qlt_irrefl _ H2).
  - by apply N.le_antisymm.
Qed.

Lemma NoDup_fmap_eq {A B} (f : A → B) (l : list A) x y :
  NoDup (f <$> l) → x ∈ l → y ∈ l → f x = f y → x = y.
Proof.
  induction l as [|z l IH]; csimpl; [by intros _ ?%elem_of_nil|].
  intros [Hz Hdup]%NoDup_cons [->|Hx]%elem_of_cons [->|Hy]%elem_of_cons Hf.
  - done.
  - destruct Hz. rewrite Hf. by apply list_elem_of_fmap_2.
  - destruct Hz. rewrite <- Hf. by apply list_elem_of_fmap_2.
  - by apply IH.
Qed.

Lemma rank_sorted candidates : StronglySorted ranks_before (rank candidates).
Proof. apply StronglySorted_merge_sort; apply _. Qed.

Lemma rank_Permutation candidates : rank candidates ≡ₚ candidates.
Proof. apply merge_sort_Permutation. Qed.

(** Two orders of the same candidates with distinct addresses rank
    alike. *)
Lemma rank_order_independent candidates candidates' :
  NoDup (ip <$> candidates) → candidates ≡ₚ candidates' →
  rank candidates' = rank candidates.
Proof.
  intros Hdup Hperm.
  apply (StronglySorted_unique_strong ranks_before);
    [|apply rank_sorted|apply rank_sorted|].
  - intros x1 x2 Hx1 Hx2 H12 H21.
    apply (NoDup_fmap_eq ip candidates); [done| | |].
    + by rewrite Hperm, <- (rank_Permutation candidates').
    + by rewrite <- (rank_Permutation candidates).
    + by apply ranks_before_antisym.
  - by rewrite !rank_Permutation.
Qed.

(** C6: the recommended list is sorted by risk descending, ties by
    ascending address, and candidates with distinct addresses are
    recommended in the same order whatever order they come in, the
    reverse order in particular. *)
Theorem recommend_order_independent (candidates candidates' : list Host)
    (limit : option nat) :
  NoDup (ip <$> candidates) → candidates ≡ₚ candidates' →
  StronglySorted ranks_before (recommend candidates limit).2
  ∧ recommend candidates' limit = recommend candidates limit
  ∧ recommend (reverse candidates) limit = recommend candidates limit.
Proof.
  intros Hdup Hperm. unfold recommend. split; [|split].
  - simpl. destruct limit as [n|]; [|apply rank_sorted].
    apply (StronglySorted_app_1_l _ _ (drop n (rank candidates))).
    rewrite take_drop. apply rank_sorted.
  - by rewrite (rank_order_independent candidates candidates' Hdup Hperm).
  - rewrite (rank_order_independent candidates (reverse candidates) Hdup);
      [done|]. symmetry. apply reverse_Permutation.
Qed.

End RankingFacts.

Lemma recommend_order_independent_witness :
  Recommender.recommend
    [Scenario.candidate_c; Scenario.candidate_b; Scenario.candidate_a] (Some 2)
  = Recommender.recommend
      [Scenario.candidate_a; Scenario.candidate_b; Scenario.candidate_c]
      (Some 2).
Proof.
  apply (recommend_order_independent
           [Scenario.candidate_a; Scenario.candidate_b; Scenario.candidate_c]
           [Scenario.candidate_c; Scenario.candidate_b; Scenario.candidate_a]
           (Some 2)).
  - apply (bool_decide_unpack _). by vm_compute.
  - symmetry. apply (reverse_Permutation
      [Scenario.candidate_a; Scenario.candidate_b; Scenario.candidate_c]).
Defined.

(** Equal risks are ordered by address: candidates a and c before b. *)
Example rank_scenario :
  ip <$> Recommender.rank
           [Scenario.candidate_c; Scenario.candidate_b; Scenario.candidate_a]
  = [2%N; 4%N; 3%N].
Proof. by vm_compute. Qed.

(** ** Scenarios of the specification *)

Section Scenarios.
Import StdoutPrinter.

(** Ten hosts found and a limit of three: the summary still says ten. *)
Example summary_ten_found_three_shown :
  text (written (print_number_of_hosts 10 2 (__init__ (Some 3%Z) false)))
  = BLUE +:+ "Found 10 hosts to maximum distance of 2:" +:+ LF
    +:+ BLUE +:+ "Displaying 3 hosts." +:+ LF +:+ LF.
Proof. reflexivity. Qed.

(** The header row after a second verbose call has the SIMILARITIES
    column twice, the second one with no width. *)
Example second_call_header :
  written
    (__print_host_list_header BLUE
       (@call_print_host_list Scenario.plain_builtins (__init__ None true)
          [[Scenario.candidate_a]; [Scenario.candidate_a]]))
  = [(BLUE +:+ BOLD, EmptyString);
     (" " +:+ center "IP ADDRESS" 20, EmptyString);
     (" " +:+ center "DOMAIN(S)" 15, EmptyString);
     (" " +:+ center "CONTACT(S)" 15, EmptyString);
     (" " +:+ center "RISK" 10, EmptyString);
     (" " +:+ center "SIMILARITIES" 2, EmptyString);
     (" " +:+ center "SIMILARITIES" 0, EmptyString);
     (END, LF)].
Proof. by vm_compute. Qed.

(** Same vendor, another product: critical, similarity 0. *)
Example compare_other_product :
  CpeComparator.compare_sw_components CpeComparator.suggested_config
    Scenario.acme_linux Scenario.acme_windows
  = (0%Q, true).
Proof. reflexivity. Qed.

End Scenarios.

(** * Further properties of the console printer *)

(** ** The column widths *)

Section ColumnWidths.
Import StdoutPrinter.
Context `{Builtins}.

Lemma length_append (s1 s2 : string) :
  String.length (s1 +:+ s2) = String.length s1 + String.length s2.
Proof. induction s1 as [|a s1 IH]; simpl; [done|]. by rewrite IH. Qed.

Lemma length_str_repeat (a : ascii) (n : nat) :
  String.length (str_repeat (String a EmptyString) n) = n.
Proof. induction n as [|n IH]; [done|]. simpl. by f_equal. Qed.

(** [str.center] pads up to the width and never cuts. *)
Lemma length_center (s : string) (width : nat) :
  String.length (center s width) = Nat.max (String.length s) width.
Proof.
  unfold center. rewrite !length_append, !length_str_repeat.
  set (marg := width - String.length s).
  assert (marg / 2 + (if Nat.odd marg && Nat.odd width then 1 else 0) ≤ marg).
  { destruct (decide (marg = 0)) as [->|Hm]; [done|].
    destruct (decide (marg = 1)) as [->|Hm1].
    - simpl. destruct (Nat.odd width); simpl; lia.
    - assert (marg / 2 + 1 ≤ marg).
      { pose proof (Nat.div_mod_eq marg 2).
        pose proof (Nat.mod_upper_bound marg 2). lia. }
      destruct (Nat.odd marg && Nat.odd width); lia. }
  lia.
Qed.

Lemma max_list_app (l1 l2 : list nat) :
  max_list (l1 ++ l2) = Nat.max (max_list l1) (max_list l2).
Proof. induction l1 as [|n l1 IH]; simpl; [done|]. rewrite IH. lia. Qed.

Lemma widest_app (l1 l2 : list string) :
  widest (l1 ++ l2) = Nat.max (widest l1) (widest l2).
Proof. unfold widest. by rewrite fmap_app, max_list_app. Qed.

Lemma widest_elem_of (s : string) (l : list string) :
  s ∈ l → String.length s ≤ widest l.
Proof.
  intros Hs. apply max_list_elem_of_le. by apply list_elem_of_fmap_2.
Qed.

Lemma fold_left_max_key {A} (key : A → nat) (xs : list A) (x : A) :
  key (fold_left (λ best y, if key best <? key y then y else best) xs x)
  = Nat.max (key x) (max_list (key <$> xs)).
Proof.
  revert x. induction xs as [|y xs IH]; intros x; csimpl; [lia|].
  rewrite IH. destruct (Nat.ltb_spec (key x) (key y)); lia.
Qed.

(** [max(l, key=key)] has the largest key of [l]. *)
Lemma py_max_key {A} (key : A → nat) (l : list A) (x : A) :
  py_max key l = Some x → key x = max_list (key <$> l).
Proof.
  destruct l as [|y l]; [done|]. intros [= <-]. simpl.
  apply fold_left_max_key.
Qed.

Lemma py_max_elem_of {A} (key : A → nat) (l : list A) (x : A) :
  py_max key l = Some x → x ∈ l.
Proof.
  destruct l as [|y l]; [done|]. intros [= <-]. simpl.
  revert y. induction l as [|z l IH]; intros y; simpl; [left|].
  destruct (key y <? key z).
  - right. apply IH.
  - pose proof (IH y) as Hy. apply elem_of_cons in Hy as [->|Hy]; [left|].
    right. by right.
Qed.

Lemma ltb_max (a b : nat) : (if a <? b then b else a) = Nat.max a b.
Proof. destruct (Nat.ltb_spec a b); lia. Qed.

End ColumnWidths.

Section ColumnWidthsResult.
Import StdoutPrinter.
Context `{Builtins}.

Lemma runs_calc_column_widths_step_widest v lc ld lw host self :
  printable host →
  runs (calc_column_widths_step v (lc, ld, lw) host) self
    (Nat.max lc (widest (contacts host)), Nat.max ld (widest (domains host)),
     if v then Nat.max lw (widest (str_warning <$> warnings host)) else lw) [].
Proof.
  intros [Hd Hc].
  destruct (py_max_is_Some String.length _ Hd) as [d Hmd].
  destruct (py_max_is_Some String.length _ Hc) as [c Hmc].
  unfold calc_column_widths_step, runs. rewrite Hmd, Hmc.
  unfold mbind, M_bind, mret, M_ret. simpl.
  rewrite !ltb_max, (py_max_key _ _ _ Hmd), (py_max_key _ _ _ Hmc).
  do 3 f_equal. destruct v; [|done].
  destruct (py_max _ (warnings host)) as [w|] eqn:Hmw.
  - rewrite ltb_max, (py_max_key _ _ _ Hmw). unfold widest.
    by rewrite <- list_fmap_compose.
  - apply py_max_None in Hmw. rewrite Hmw. unfold widest. csimpl.
    by rewrite Nat.max_0_r.
Qed.

Lemma runs_calc_column_widths_loop_widest v lc ld lw host_list self :
  Forall printable host_list →
  runs (calc_column_widths_loop v (lc, ld, lw) host_list) self
    (Nat.max lc (widest (host_list ≫= contacts)),
     Nat.max ld (widest (host_list ≫= domains)),
     if v then Nat.max lw (widest (str_warning <$> (host_list ≫= warnings)))
     else lw) [].
Proof.
  intros Hall. revert lc ld lw.
  induction Hall as [|host rest Hhost _ IH]; intros lc ld lw.
  - unfold runs, widest. csimpl. unfold mret, M_ret.
    rewrite !Nat.max_0_r. by destruct v.
  - unfold runs in *. cbn [calc_column_widths_loop].
    rewrite (bind_returned _ _ _ _ _ _
               (runs_calc_column_widths_step_widest v lc ld lw host self Hhost)).
    rewrite IH. unfold outcome, printer_after, written. cbn [fst snd app].
    rewrite !bind_cons, fmap_app, !widest_app, !Nat.max_assoc.
    by destruct v.
Qed.

End ColumnWidthsResult.

Section SizedColumns.
Import StdoutPrinter.
Context `{Builtins}.

(** With printable hosts the width computation leaves the printer sized
    for the host list. *)
Lemma calc_column_widths_sized host_list self :
  Forall printable host_list →
  3 ≤ length (widths self) →
  (verbose self = true → 5 ≤ length (widths self)) →
  __calc_column_widths host_list self = (Returned tt, sized self host_list, []).
Proof.
  intros Hall Hlen Hlenv.
  pose proof (runs_calc_column_widths_loop_widest (verbose self) 0 0 0
                host_list self Hall) as Hloop.
  unfold __calc_column_widths.
  rewrite (bind_returned _ _ _ _ _ _ (runs_get_self self)).
  rewrite (bind_returned _ _ _ _ _ _ Hloop).
  rewrite !Nat.max_0_l.
  rewrite (bind_returned _ _ _ _ _ _
             (set_width_returns 1 _ self ltac:(lia))).
  erewrite (bind_returned (set_width 2 _));
    [|apply set_width_returns; simpl; rewrite length_insert; lia].
  unfold sized, domain_width, contact_width, warning_width.
  simpl. destruct (verbose self) eqn:Hv.
  - rewrite set_width_returns by (simpl; rewrite !length_insert; lia).
    done.
  - done.
Qed.

Lemma sized_widths self host_list :
  3 ≤ length (widths self) →
  (verbose self = true → 5 ≤ length (widths self)) →
  widths (sized self host_list) !! 0 = widths self !! 0
  ∧ widths (sized self host_list) !! 1 = Some (domain_width host_list)
  ∧ widths (sized self host_list) !! 2 = Some (contact_width host_list)
  ∧ widths (sized self host_list) !! 3 = widths self !! 3
  ∧ (verbose self = true →
     widths (sized self host_list) !! 4 = Some (warning_width host_list)).
Proof.
  intros Hlen Hlenv. unfold sized. simpl. destruct (verbose self); simpl.
  - specialize (Hlenv eq_refl). repeat split.
    + by rewrite !list_lookup_insert_ne.
    + rewrite !list_lookup_insert_ne by done.
      apply list_lookup_insert_eq. lia.
    + rewrite list_lookup_insert_ne by done.
      apply list_lookup_insert_eq. rewrite length_insert. lia.
    + by rewrite !list_lookup_insert_ne.
    + intros _. apply list_lookup_insert_eq. rewrite !length_insert. lia.
  - repeat split.
    + by rewrite !list_lookup_insert_ne.
    + rewrite list_lookup_insert_ne by done.
      apply list_lookup_insert_eq. lia.
    + apply list_lookup_insert_eq. rewrite length_insert. lia.
    + by rewrite !list_lookup_insert_ne.
    + done.
Qed.

(** [print_host_list] for printable hosts: the printer is left sized
    for the whole list, and what is printed is the header, a separator
    and the rows of each host of the slice followed by a separator. *)
Lemma print_host_list_sized host_list self :
  Forall printable host_list → columns_ok self →
  print_host_list host_list self
  = (Returned tt,
     sized (printer_after (add_verbose_column self)) host_list,
     let self' := sized (printer_after (add_verbose_column self)) host_list in
     written (__print_host_list_header BLUE self')
     ++ written (__print_horizontal_separator YELLOW self')
     ++ concat ((λ host,
                   written (__print_host_in_table host YELLOW self')
                   ++ written (__print_horizontal_separator YELLOW self'))
                  <$> slice_to host_list (limit self))).
Proof.
  intros Hall Hok.
  destruct (print_host_list_returns host_list self Hall Hok)
    as (self' & _ & Hcalc & Heq).
  destruct (add_verbose_column_ready self Hok) as [(_ & _ & Hlen) Hlenv].
  rewrite calc_column_widths_sized in Hcalc by (done || lia).
  injection Hcalc as <-. exact Heq.
Qed.

End SizedColumns.

(** ** Invariants of the printer and the widths it computes *)

Section PrinterInvariants.
Import StdoutPrinter.
Context `{Builtins}.

Lemma same_columns_invariant (p1 p2 : Printer) :
  same_columns p1 p2 →
  take 4 (headers p1) = ["IP ADDRESS"; "DOMAIN(S)"; "CONTACT(S)"; "RISK"]
  ∧ Forall (λ header, header = "SIMILARITIES") (drop 4 (headers p1))
  ∧ length (headers p1) = length (widths p1)
  ∧ widths p1 !! 0 = Some 20 ∧ widths p1 !! 3 = Some 10 →
  take 4 (headers p2) = ["IP ADDRESS"; "DOMAIN(S)"; "CONTACT(S)"; "RISK"]
  ∧ Forall (λ header, header = "SIMILARITIES") (drop 4 (headers p2))
  ∧ length (headers p2) = length (widths p2)
  ∧ widths p2 !! 0 = Some 20 ∧ widths p2 !! 3 = Some 10.
Proof.
  intros (_ & _ & Hh & Hlen & Hw0 & Hw3) (? & ? & ? & ? & ?).
  rewrite Hh, Hlen, Hw0, Hw3. done.
Qed.

(** X5: however a printer has been used, its first four headers are
    the ones it was built with, any further header is SIMILARITIES,
    there are as many widths as headers, and the IP ADDRESS and RISK
    columns keep their widths of 20 and 10. *)
Theorem reachable_invariant self :
  reachable self →
  take 4 (headers self) = ["IP ADDRESS"; "DOMAIN(S)"; "CONTACT(S)"; "RISK"]
  ∧ Forall (λ header, header = "SIMILARITIES") (drop 4 (headers self))
  ∧ length (headers self) = length (widths self)
  ∧ widths self !! 0 = Some 20 ∧ widths self !! 3 = Some 10.
Proof.
  induction 1 as [l v|self l _ IH|self v _ IH|self host _ IH|self n d _ IH
                 |self hosts _ IH].
  - by repeat split.
  - exact IH.
  - exact IH.
  - exact (same_columns_invariant _ _ (keeps_print_attacked_host host self) IH).
  - exact (same_columns_invariant _ _ (keeps_print_number_of_hosts n d self) IH).
  - apply (same_columns_invariant _ _ (print_host_list_columns hosts self)).
    destruct IH as (Ht & Hd & Hlen & Hw0 & Hw3).
    rewrite add_verbose_column_eq. unfold printer_after. simpl.
    destruct (verbose self); [|done]. simpl.
    assert (4 ≤ length (headers self)).
    { pose proof (f_equal length Ht) as Hl. rewrite length_take in Hl.
      change (4 `min` length (headers self) = 4) in Hl. lia. }
    repeat split.
    + by rewrite take_app_le.
    + rewrite drop_app_le by done. apply Forall_app. split; [done|].
      by repeat constructor.
    + rewrite !length_app. simpl. lia.
    + by apply lookup_app_l_Some.
    + by apply lookup_app_l_Some.
Qed.

(** X1: after [print_host_list] on printable hosts, the DOMAIN(S),
    CONTACT(S) and, in verbose mode, SIMILARITIES columns are as wide as
    the longest domain, contact and warning text of the whole list, the
    hosts beyond the limit included, plus two; the IP ADDRESS and RISK
    columns stay 20 and 10 wide. *)
Theorem print_host_list_sizes_columns host_list self :
  reachable self → Forall printable host_list →
  widths (printer_after (print_host_list host_list self)) !! 0 = Some 20
  ∧ widths (printer_after (print_host_list host_list self)) !! 1
    = Some (widest (host_list ≫= domains) + 2)
  ∧ widths (printer_after (print_host_list host_list self)) !! 2
    = Some (widest (host_list ≫= contacts) + 2)
  ∧ widths (printer_after (print_host_list host_list self)) !! 3 = Some 10
  ∧ (verbose self = true →
     widths (printer_after (print_host_list host_list self)) !! 4
     = Some (widest (str_warning <$> (host_list ≫= warnings)) + 2)).
Proof.
  intros Hreach Hall.
  destruct (reachable_invariant _
              (reachable_print_host_list self host_list Hreach))
    as (_ & _ & _ & Hw0 & Hw3).
  split; [exact Hw0|]. split; [|split; [|split; [exact Hw3|]]].
  all: pose proof (reachable_columns_ok self Hreach) as Hok.
  all: rewrite (print_host_list_sized host_list self Hall Hok).
  all: unfold printer_after; simpl.
  all: destruct (add_verbose_column_ready self Hok) as [(_ & _ & Hlen) Hlenv].
  all: destruct (sized_widths (printer_after (add_verbose_column self))
                   host_list) as (_ & H1 & H2 & _ & H4); [lia|done|].
  - exact H1.
  - exact H2.
  - intros Hv. apply H4.
    destruct (add_verbose_column_fields self) as (_ & -> & _). exact Hv.
Qed.

(** X2: after [print_host_list] on printable hosts, every domain,
    contact and, in verbose mode, warning text of every host of the
    list, centred in its column, is exactly as wide as the column: no
    such cell overflows. *)
Theorem cells_fit_columns host_list self host :
  reachable self → Forall printable host_list → host ∈ host_list →
  (∀ d w, d ∈ domains host →
     widths (printer_after (print_host_list host_list self)) !! 1 = Some w →
     String.length (center d w) = w)
  ∧ (∀ c w, c ∈ contacts host →
       widths (printer_after (print_host_list host_list self)) !! 2 = Some w →
       String.length (center c w) = w)
  ∧ (verbose self = true → ∀ x w, x ∈ warnings host →
       widths (printer_after (print_host_list host_list self)) !! 4 = Some w →
       String.length (center (str_warning x) w) = w).
Proof.
  intros Hreach Hall Hhost.
  destruct (print_host_list_sizes_columns host_list self Hreach Hall)
    as (_ & H1 & H2 & _ & H4).
  split; [|split].
  - intros d w Hd Hw. rewrite H1 in Hw. injection Hw as <-.
    rewrite length_center.
    assert (String.length d ≤ widest (host_list ≫= domains)); [|lia].
    apply widest_elem_of, list_elem_of_bind. by exists host.
  - intros c w Hc Hw. rewrite H2 in Hw. injection Hw as <-.
    rewrite length_center.
    assert (String.length c ≤ widest (host_list ≫= contacts)); [|lia].
    apply widest_elem_of, list_elem_of_bind. by exists host.
  - intros Hv x w Hx Hw. rewrite (H4 Hv) in Hw. injection Hw as <-.
    rewrite length_center.
    assert (String.length (str_warning x)
            ≤ widest (str_warning <$> (host_list ≫= warnings))); [|lia].
    apply widest_elem_of, list_elem_of_fmap_2, list_elem_of_bind.
    by exists host.
Qed.

End PrinterInvariants.

Lemma reachable_invariant_witness :
  length (StdoutPrinter.headers
            (StdoutPrinter.printer_after
               (@StdoutPrinter.print_host_list Scenario.plain_builtins
                  [Scenario.candidate_b] (StdoutPrinter.__init__ None true))))
  = length (StdoutPrinter.widths
              (StdoutPrinter.printer_after
                 (@StdoutPrinter.print_host_list Scenario.plain_builtins
                    [Scenario.candidate_b]
                    (StdoutPrinter.__init__ None true)))).
Proof.
  apply (@reachable_invariant Scenario.plain_builtins
           (StdoutPrinter.printer_after
              (@StdoutPrinter.print_host_list Scenario.plain_builtins
                 [Scenario.candidate_b] (StdoutPrinter.__init__ None true)))
           (StdoutPrinter.reachable_print_host_list
              (StdoutPrinter.__init__ None true) [Scenario.candidate_b]
              (StdoutPrinter.reachable_init None true))).
Defined.

Lemma print_host_list_sizes_columns_witness :
  StdoutPrinter.widths
    (StdoutPrinter.printer_after
       (@StdoutPrinter.print_host_list Scenario.plain_builtins
          [Scenario.candidate_a; Scenario.candidate_b; Scenario.candidate_c]
          (StdoutPrinter.__init__ (Some 1%Z) true))) !! 1
  = Some 16.
Proof.
  apply (@print_host_list_sizes_columns Scenario.plain_builtins
           [Scenario.candidate_a; Scenario.candidate_b; Scenario.candidate_c]
           (StdoutPrinter.__init__ (Some 1%Z) true)
           (StdoutPrinter.reachable_init (Some 1%Z) true)
           scenario_hosts_printable).
Defined.

Lemma cells_fit_columns_witness :
  String.length (center "bb.example.org" 16) = 16.
Proof.
  assert (Hin : Scenario.candidate_b
                ∈ [Scenario.candidate_a; Scenario.candidate_b;
                   Scenario.candidate_c]) by (right; left).
  apply (proj1 (@cells_fit_columns Scenario.plain_builtins
                  [Scenario.candidate_a; Scenario.candidate_b;
                   Scenario.candidate_c]
                  (StdoutPrinter.__init__ (Some 1%Z) true) Scenario.candidate_b
                  (StdoutPrinter.reachable_init (Some 1%Z) true)
                  scenario_hosts_printable Hin)).
  - right. left.
  - by vm_compute.
Defined.


(** ** Failing and repeated calls of [print_host_list] *)

Section PrinterEdgeCases.
Import StdoutPrinter.
Context `{Builtins}.

Lemma calc_column_widths_step_raises v acc host self :
  domains host = [] ∨ contacts host = [] →
  calc_column_widths_step v acc host self = (Raised ValueError, self, []).
Proof.
  intros Hempty. destruct acc as [[lc ld] lw]. unfold calc_column_widths_step.
  destruct (domains host) as [|d ds] eqn:Hd; [done|].
  destruct Hempty as [|Hc]; [done|]. by rewrite Hc.
Qed.

Lemma calc_column_widths_loop_raises v acc host_list self host :
  host ∈ host_list → domains host = [] ∨ contacts host = [] →
  calc_column_widths_loop v acc host_list self = (Raised ValueError, self, []).
Proof.
  intros Hin Hempty. revert acc.
  induction host_list as [|h rest IH]; intros acc; [by apply elem_of_nil in Hin|].
  cbn [calc_column_widths_loop].
  destruct (decide (domains h = [] ∨ contacts h = [])) as [Hh|Hh].
  - apply bind_raised. by apply calc_column_widths_step_raises.
  - assert (Hp : printable h).
    { split; intros ?; apply Hh; [by left|by right]. }
    destruct (runs_calc_column_widths_step v acc h self Hp) as [acc' Hstep].
    rewrite (bind_returned _ _ _ _ _ _ Hstep).
    apply elem_of_cons in Hin as [->|Hin]; [done|].
    by rewrite (IH Hin acc').
Qed.

(** X3: when some host of the list, even one beyond the limit, has no
    domain or no contact, [print_host_list] raises [ValueError] and
    prints nothing; in verbose mode the SIMILARITIES header and width of
    the failed call stay appended. *)
Theorem print_host_list_raises host_list self host :
  host ∈ host_list → domains host = [] ∨ contacts host = [] →
  print_host_list host_list self
  = (Raised ValueError,
     if verbose self
     then {| limit := limit self; verbose := verbose self;
             headers := headers self ++ ["SIMILARITIES"];
             widths := widths self ++ [0] |}
     else self, []).
Proof.
  intros Hin Hempty. unfold print_host_list.
  rewrite (bind_returned _ _ _ _ _ _ (runs_get_self self)).
  rewrite (bind_returned _ _ _ _ _ _ (add_verbose_column_eq self)).
  set (p1 := if verbose self then _ else self).
  assert (Hcalc : __calc_column_widths host_list p1
                  = (Raised ValueError, p1, [])).
  { unfold __calc_column_widths.
    rewrite (bind_returned _ _ _ _ _ _ (runs_get_self p1)).
    rewrite (bind_raised _ _ _ _ _ _
               (calc_column_widths_loop_raises _ _ _ _ _ Hin Hempty)).
    done. }
  by rewrite (bind_raised _ _ _ _ _ _ Hcalc).
Qed.

Lemma sized_idempotent self host_list :
  sized (sized self host_list) host_list = sized self host_list.
Proof.
  unfold sized. simpl. destruct (verbose self); simpl; f_equal.
  - rewrite (list_insert_insert_ne _ 1 4), (list_insert_insert_ne _ 2 4),
      (list_insert_insert_ne _ 1 2) by done.
    by rewrite !list_insert_insert_eq.
  - rewrite (list_insert_insert_ne _ 1 2) by done.
    by rewrite !list_insert_insert_eq.
Qed.

(** X4: outside verbose mode a second [print_host_list] on the same
    printable hosts prints the same table as the first and leaves the
    same printer: the widths are computed afresh on every call. *)
Theorem print_host_list_repeatable host_list self :
  reachable self → verbose self = false → Forall printable host_list →
  print_host_list host_list (printer_after (print_host_list host_list self))
  = print_host_list host_list self.
Proof.
  intros Hreach Hv Hall.
  assert (Hadd : ∀ p, verbose p = false →
                      printer_after (add_verbose_column p) = p).
  { intros p Hp. rewrite add_verbose_column_eq. unfold printer_after. simpl.
    by rewrite Hp. }
  pose proof (reachable_columns_ok _
                (reachable_print_host_list self host_list Hreach)) as Hok2.
  pose proof (print_host_list_sized host_list self Hall
                (reachable_columns_ok self Hreach)) as Hfirst.
  rewrite (Hadd self Hv) in Hfirst.
  assert (Hafter : printer_after (print_host_list host_list self)
                   = sized self host_list) by (by rewrite Hfirst).
  rewrite Hafter in *.
  rewrite (print_host_list_sized host_list _ Hall Hok2).
  rewrite (Hadd (sized self host_list) Hv), sized_idempotent.
  exact (eq_sym Hfirst).
Qed.

End PrinterEdgeCases.

Lemma print_host_list_raises_witness :
  @StdoutPrinter.print_host_list Scenario.plain_builtins
    [Scenario.candidate_a; Scenario.nameless]
    (StdoutPrinter.__init__ (Some 1%Z) false)
  = (StdoutPrinter.Raised StdoutPrinter.ValueError,
     StdoutPrinter.__init__ (Some 1%Z) false, []).
Proof.
  assert (Hin : Scenario.nameless ∈ [Scenario.candidate_a; Scenario.nameless])
    by (right; left).
  apply (@print_host_list_raises Scenario.plain_builtins
           [Scenario.candidate_a; Scenario.nameless]
           (StdoutPrinter.__init__ (Some 1%Z) false) Scenario.nameless Hin).
  left. reflexivity.
Defined.

Lemma print_host_list_repeatable_witness :
  @StdoutPrinter.print_host_list Scenario.plain_builtins
    [Scenario.candidate_a; Scenario.candidate_b; Scenario.candidate_c]
    (StdoutPrinter.printer_after
       (@StdoutPrinter.print_host_list Scenario.plain_builtins
          [Scenario.candidate_a; Scenario.candidate_b; Scenario.candidate_c]
          (StdoutPrinter.__init__ (Some 2%Z) false)))
  = @StdoutPrinter.print_host_list Scenario.plain_builtins
      [Scenario.candidate_a; Scenario.candidate_b; Scenario.candidate_c]
      (StdoutPrinter.__init__ (Some 2%Z) false).
Proof.
  apply (@print_host_list_repeatable Scenario.plain_builtins
           [Scenario.candidate_a; Scenario.candidate_b; Scenario.candidate_c]
           (StdoutPrinter.__init__ (Some 2%Z) false)
           (StdoutPrinter.reachable_init (Some 2%Z) false) eq_refl
           scenario_hosts_printable).
Defined.

(** ** The shape of the table and the summary *)

Section TableShape.
Import StdoutPrinter.
Context `{Builtins}.

Lemma line_count_concat_sum {A} (g : A → list Write) (l : list A) :
  line_count (concat (g <$> l)) = sum_list ((λ x, line_count (g x)) <$> l).
Proof.
  induction l as [|x l IH]; csimpl; [done|].
  by rewrite line_count_app, IH.
Qed.

Lemma line_count_print_host_list_header color self :
  line_count (written (__print_host_list_header color self)) = 1.
Proof.
  destruct (runs_written _ _ _ _ (runs_print_host_list_header color self))
    as (_ & _ & ->).
  by rewrite line_count_cons_silent, line_count_app, line_count_silent.
Qed.

Lemma line_count_print_horizontal_separator color self :
  line_count (written (__print_horizontal_separator color self)) = 1.
Proof.
  destruct (runs_written _ _ _ _ (runs_print_horizontal_separator color self))
    as (_ & _ & ->).
  by rewrite line_count_cons_silent, line_count_app, line_count_silent.
Qed.

(** X6: for printable hosts [print_host_list] prints two lines, the
    header and a separator, and then for every host of
    [host_list[:limit]] its first row, its continuation rows and a
    separator. *)
Theorem print_host_list_line_count host_list self :
  reachable self → Forall printable host_list →
  line_count (written (print_host_list host_list self))
  = 2 + sum_list ((λ host, 2 + extra_rows (verbose self) host)
                    <$> slice_to host_list (limit self)).
Proof.
  intros Hreach Hall.
  pose proof (reachable_columns_ok self Hreach) as Hok.
  rewrite (print_host_list_sized host_list self Hall Hok).
  unfold written at 1. cbn [snd]. cbv zeta.
  set (self' := sized (printer_after (add_verbose_column self)) host_list).
  assert (Hready : table_ready self').
  { destruct (print_host_list_returns host_list self Hall Hok)
      as (p & Hp & _ & Heq).
    rewrite (print_host_list_sized host_list self Hall Hok) in Heq.
    injection Heq as <- _. exact Hp. }
  assert (Hv : verbose self' = verbose self).
  { unfold self'. simpl. by destruct (add_verbose_column_fields self) as (_ & -> & _). }
  rewrite !line_count_app, line_count_print_host_list_header,
    line_count_print_horizontal_separator, line_count_concat_sum.
  assert (Hrows :
    (λ host, line_count (written (__print_host_in_table host YELLOW self')
                         ++ written (__print_horizontal_separator YELLOW self')))
      <$> slice_to host_list (limit self)
    = (λ host, 2 + extra_rows (verbose self) host)
        <$> slice_to host_list (limit self)).
  { apply Forall_fmap_ext, Forall_forall. intros host Hhost.
    apply slice_to_subset in Hhost.
    rewrite Forall_forall in Hall. specialize (Hall host Hhost).
    destruct Hready as [(_ & _ & Hlen) Hlenv].
    destruct (print_host_in_table_line_count host YELLOW self' Hall Hlen Hlenv)
      as (_ & _ & Hcount).
    rewrite line_count_app, Hcount, line_count_print_horizontal_separator, Hv.
    lia. }
  rewrite Hrows. lia.
Qed.

(** X7: with a limit that is not negative, [print_number_of_hosts]
    given the length of the host list prints the "Displaying" line
    exactly when the limit is smaller than that length, and
    [host_list[:limit]], which [print_host_list] renders, then has as
    many hosts as the line says; otherwise it is the whole list. *)
Theorem summary_matches_table self (host_list : list Host) max_distance l :
  limit self = Some l → (0 ≤ l)%Z →
  ((l < Z.of_nat (length host_list))%Z →
     written (print_number_of_hosts (Z.of_nat (length host_list)) max_distance
                self) !! 1
     = Some (BLUE +:+ "Displaying " +:+ str_int l +:+ " hosts.", LF)
     ∧ Z.of_nat (length (slice_to host_list (limit self))) = l)
  ∧ ((Z.of_nat (length host_list) ≤ l)%Z →
       written (print_number_of_hosts (Z.of_nat (length host_list))
                  max_distance self) !! 1
       = Some (EmptyString, LF)
       ∧ slice_to host_list (limit self) = host_list).
Proof.
  intros Hl Hpos.
  assert (Hsum : written (print_number_of_hosts (Z.of_nat (length host_list))
                            max_distance self) !! 1
                 = if (l <? Z.of_nat (length host_list))%Z
                   then Some (BLUE +:+ "Displaying " +:+ str_int l +:+ " hosts.", LF)
                   else Some (EmptyString, LF)).
  { unfold print_number_of_hosts.
    rewrite (bind_returned _ _ _ _ _ _ (runs_get_self self)).
    erewrite bind_returned by apply runs_print. rewrite Hl.
    by destruct (l <? Z.of_nat (length host_list))%Z. }
  rewrite Hsum, Hl, slice_to_take by done. split.
  - intros Hlt. rewrite (proj2 (Z.ltb_lt _ _) Hlt). split; [done|].
    rewrite length_take. lia.
  - intros Hge. rewrite (proj2 (Z.ltb_ge _ _) Hge). split; [done|].
    apply take_ge. lia.
Qed.

(** X8: a negative limit is not refused: [print_number_of_hosts] prints
    the "Displaying" line with the negative number for every count that
    is not negative, and [host_list[:limit]] is the list without its
    last [-limit] hosts. *)
Theorem negative_limit_drops_last self (host_list : list Host)
    number_of_hosts max_distance l :
  limit self = Some l → (l < 0)%Z → (0 ≤ number_of_hosts)%Z →
  written (print_number_of_hosts number_of_hosts max_distance self) !! 1
  = Some (BLUE +:+ "Displaying " +:+ str_int l +:+ " hosts.", LF)
  ∧ slice_to host_list (limit self)
    = take (length host_list - Z.to_nat (- l)) host_list
  ∧ length (slice_to host_list (limit self))
    = length host_list - Z.to_nat (- l).
Proof.
  intros Hl Hneg Hn. split; [|split].
  - unfold print_number_of_hosts.
    rewrite (bind_returned _ _ _ _ _ _ (runs_get_self self)).
    erewrite bind_returned by apply runs_print. rewrite Hl.
    by rewrite (proj2 (Z.ltb_lt l number_of_hosts)) by lia.
  - rewrite Hl. unfold slice_to. by rewrite (proj2 (Z.leb_gt 0 l)) by lia.
  - rewrite Hl. unfold slice_to. rewrite (proj2 (Z.leb_gt 0 l)) by lia.
    rewrite length_take. lia.
Qed.

(** X11: in the header row and in a separator the cell of a column
    comes at the same place; the header cell is never narrower than the
    separator segment, and they are equally wide exactly when the header
    is not longer than the width of the column. *)
Theorem header_lines_up_with_separator self k header width color color' :
  headers self !! k = Some header → widths self !! k = Some width →
  written (__print_host_list_header color self) !! (S k)
  = Some (" " +:+ center header width, EmptyString)
  ∧ written (__print_horizontal_separator color' self) !! (S k)
    = Some ("+" +:+ str_repeat "-" width, EmptyString)
  ∧ String.length ("+" +:+ str_repeat "-" width)
    ≤ String.length (" " +:+ center header width)
  ∧ (String.length (" " +:+ center header width)
     = String.length ("+" +:+ str_repeat "-" width)
     ↔ String.length header ≤ width).
Proof.
  intros Hh Hw.
  destruct (runs_written _ _ _ _ (runs_print_host_list_header color self))
    as (_ & _ & ->).
  destruct (runs_written _ _ _ _ (runs_print_horizontal_separator color' self))
    as (_ & _ & ->).
  assert (Hlen : String.length (" " +:+ center header width)
                 = S (Nat.max (String.length header) width)).
  { by rewrite length_append, length_center. }
  assert (Hlen' : String.length ("+" +:+ str_repeat "-" width) = S width).
  { by rewrite length_append, length_str_repeat. }
  split; [|split; [|split]].
  - change ((?x :: ?l) !! S k) with (l !! k).
    rewrite lookup_app_l.
    + by rewrite list_lookup_fmap, (proj2 (lookup_zip_Some _ _ k _ _) (conj Hh Hw)).
    + rewrite length_fmap. apply lookup_lt_is_Some.
      rewrite (proj2 (lookup_zip_Some _ _ k _ _) (conj Hh Hw)). by eexists.
  - change ((?x :: ?l) !! S k) with (l !! k).
    rewrite lookup_app_l.
    + by rewrite list_lookup_fmap, Hw.
    + rewrite length_fmap. by apply lookup_lt_Some in Hw.
  - rewrite Hlen, Hlen'. lia.
  - rewrite Hlen, Hlen'. lia.
Qed.

End TableShape.

Lemma print_host_list_line_count_witness :
  StdoutPrinter.line_count
    (StdoutPrinter.written
       (@StdoutPrinter.print_host_list Scenario.plain_builtins
          [Scenario.candidate_a; Scenario.candidate_b; Scenario.candidate_c]
          (StdoutPrinter.__init__ (Some 2%Z) true)))
  = 7.
Proof.
  apply (@print_host_list_line_count Scenario.plain_builtins
           [Scenario.candidate_a; Scenario.candidate_b; Scenario.candidate_c]
           (StdoutPrinter.__init__ (Some 2%Z) true)
           (StdoutPrinter.reachable_init (Some 2%Z) true)
           scenario_hosts_printable).
Defined.

Lemma summary_matches_table_witness :
  Z.of_nat
    (length (slice_to
               [Scenario.candidate_a; Scenario.candidate_b;
                Scenario.candidate_c] (Some 1%Z)))
  = 1%Z.
Proof.
  apply (proj1 (summary_matches_table
                  (StdoutPrinter.__init__ (Some 1%Z) false)
                  [Scenario.candidate_a; Scenario.candidate_b;
                   Scenario.candidate_c] 2 1 eq_refl ltac:(lia))).
  simpl. lia.
Defined.

Lemma negative_limit_drops_last_witness :
  slice_to [Scenario.candidate_a; Scenario.candidate_b; Scenario.candidate_c]
    (Some (-1)%Z)
  = [Scenario.candidate_a; Scenario.candidate_b].
Proof.
  apply (proj1 (proj2 (negative_limit_drops_last
                         (StdoutPrinter.__init__ (Some (-1)%Z) false)
                         [Scenario.candidate_a; Scenario.candidate_b;
                          Scenario.candidate_c] 3 2 (-1) eq_refl
                         ltac:(lia) ltac:(lia)))).
Defined.

Lemma header_lines_up_with_separator_witness :
  StdoutPrinter.written
    (StdoutPrinter.__print_host_list_header StdoutPrinter.BLUE
       Scenario.verbose_table) !! 2
  = Some (" " +:+ center "DOMAIN(S)" 16, EmptyString).
Proof.
  apply (header_lines_up_with_separator Scenario.verbose_table 1 "DOMAIN(S)"
           16 StdoutPrinter.BLUE StdoutPrinter.YELLOW eq_refl eq_refl).
Defined.

(** ** What the rows of a host contain *)

Section RowContents.
Import StdoutPrinter.
Context `{Builtins}.

Lemma runs_cell_lookup (l : list string) (i k w : nat) self :
  widths self !! k = Some w →
  runs (if decide (i < length l)
        then d ← getitem l i; w' ← get_width k;
             print_end (center d w' +:+ "|") ""
        else w' ← get_width k; print_end (str_repeat " " w' +:+ "|") "")
    self tt
    [(match l !! i with Some d => center d w | None => str_repeat " " w end
      +:+ "|", EmptyString)].
Proof.
  intros Hw. destruct (decide (i < length l)) as [Hi|Hi].
  - destruct (lookup_lt_is_Some_2 l i Hi) as [d Hd]. rewrite Hd.
    eapply runs_eq; [run_bind; run_bind; run_step|reflexivity].
  - rewrite (lookup_ge_None_2 l i) by lia.
    eapply runs_eq; [run_bind; run_step|reflexivity].
Qed.

Lemma runs_last_cell_lookup (l : list Warning) (i w3 : nat) self :
  widths self !! 3 = Some w3 →
  (verbose self = true → is_Some (widths self !! 4)) →
  runs (w3 ← get_width 3;
        print_end (str_repeat " " w3 +:+ "|") "" ;;
        if verbose self && bool_decide (i < length l)
        then w ← getitem l i; w4 ← get_width 4;
             print (center (str_warning w) w4 +:+ "|")
        else if verbose self
        then w4 ← get_width 4; print (str_repeat " " w4 +:+ "|")
        else print "")
    self tt
    [(str_repeat " " w3 +:+ "|", EmptyString);
     (if verbose self
      then match l !! i with
           | Some x => center (str_warning x) (default 0 (widths self !! 4))
           | None => str_repeat " " (default 0 (widths self !! 4))
           end +:+ "|"
      else EmptyString, LF)].
Proof.
  intros Hw3 Hw4. destruct (verbose self) eqn:Hv; simpl.
  - destruct (Hw4 eq_refl) as [w4 Hw4']. rewrite Hw4'. simpl.
    destruct (decide (i < length l)) as [Hi|Hi].
    + rewrite bool_decide_true by done.
      destruct (lookup_lt_is_Some_2 l i Hi) as [d Hd]. rewrite Hd.
      eapply runs_eq;
        [run_bind; run_bind; run_bind; run_bind; run_step|reflexivity].
    + rewrite bool_decide_false by done.
      rewrite (lookup_ge_None_2 l i) by lia.
      eapply runs_eq; [run_bind; run_bind; run_bind; run_step|reflexivity].
  - eapply runs_eq; [run_bind; run_bind; run_step|reflexivity].
Qed.

(** The five prints of a continuation row. *)
Lemma print_host_row_written host i self w0 w1 w2 w3 :
  widths self !! 0 = Some w0 → widths self !! 1 = Some w1 →
  widths self !! 2 = Some w2 → widths self !! 3 = Some w3 →
  (verbose self = true → is_Some (widths self !! 4)) →
  written (print_host_row host i self)
  = [("|" +:+ str_repeat " " w0 +:+ "|", EmptyString);
     (match domains host !! i with
      | Some d => center d w1 | None => str_repeat " " w1 end +:+ "|",
      EmptyString);
     (match contacts host !! i with
      | Some c => center c w2 | None => str_repeat " " w2 end +:+ "|",
      EmptyString);
     (str_repeat " " w3 +:+ "|", EmptyString);
     (if verbose self
      then match warnings host !! i with
           | Some x => center (str_warning x) (default 0 (widths self !! 4))
           | None => str_repeat " " (default 0 (widths self !! 4))
           end +:+ "|"
      else EmptyString, LF)].
Proof.
  intros Hw0 Hw1 Hw2 Hw3 Hw4.
  assert (Hruns : runs (print_host_row host i) self tt
    [("|" +:+ str_repeat " " w0 +:+ "|", EmptyString);
     (match domains host !! i with
      | Some d => center d w1 | None => str_repeat " " w1 end +:+ "|",
      EmptyString);
     (match contacts host !! i with
      | Some c => center c w2 | None => str_repeat " " w2 end +:+ "|",
      EmptyString);
     (str_repeat " " w3 +:+ "|", EmptyString);
     (if verbose self
      then match warnings host !! i with
           | Some x => center (str_warning x) (default 0 (widths self !! 4))
           | None => str_repeat " " (default 0 (widths self !! 4))
           end +:+ "|"
      else EmptyString, LF)]).
  { unfold print_host_row. eapply runs_eq.
    - run_bind. run_bind. run_bind.
      eapply runs_bind; [exact (runs_cell_lookup (domains host) i 1 w1 self Hw1)|].
      eapply runs_bind; [exact (runs_cell_lookup (contacts host) i 2 w2 self Hw2)|].
      exact (runs_last_cell_lookup (warnings host) i w3 self Hw3 Hw4).
    - reflexivity. }
  by destruct (runs_written _ _ _ _ Hruns) as (_ & _ & ->).
Qed.

(** All the prints of a host: the first row, the end of its line, the
    continuation rows 1 to [extra_rows], the colour reset. *)
Lemma print_host_in_table_written host color self d c :
  domains host !! 0 = Some d → contacts host !! 0 = Some c →
  4 ≤ length (widths self) →
  (verbose self = true → 5 ≤ length (widths self)) →
  written (__print_host_in_table host color self)
  = (color +:+ "|", EmptyString)
      :: ((λ iw, (YELLOW +:+ center iw.1 iw.2 +:+ "|", EmptyString))
            <$> zip (print_items (verbose self) host d c) (widths self))
      ++ (EmptyString, LF)
      :: concat ((λ i, written (print_host_row host i self))
                   <$> seq 1 (extra_rows (verbose self) host))
      ++ [(END, EmptyString)].
Proof.
  intros Hd Hc Hlen Hlenv.
  assert (Hrow : ∀ i, runs (print_host_row host i) self tt
                        (written (print_host_row host i self))).
  { intros i.
    destruct (runs_print_host_row host i self Hlen Hlenv) as (out & Hout & _).
    by destruct (runs_written _ _ _ _ Hout) as (_ & _ & ->). }
  assert (Hruns : runs (__print_host_in_table host color) self tt
    ((color +:+ "|", EmptyString)
      :: ((λ iw, (YELLOW +:+ center iw.1 iw.2 +:+ "|", EmptyString))
            <$> zip (print_items (verbose self) host d c) (widths self))
      ++ (EmptyString, LF)
      :: concat ((λ i, written (print_host_row host i self))
                   <$> seq 1 (extra_rows (verbose self) host))
      ++ [(END, EmptyString)])).
  { unfold __print_host_in_table. eapply runs_eq.
    - run_bind. run_bind. run_bind. run_bind.
      eapply runs_bind; [apply runs_for_each_print_end|].
      assert (Hcond : bool_decide (0 ≠ length (contacts host)) = true).
      { apply bool_decide_eq_true. apply lookup_lt_Some in Hc. lia. }
      rewrite Hcond, orb_true_r. simpl.
      eapply runs_bind; [|apply runs_print_end].
      eapply runs_bind; [apply runs_print|].
      apply runs_for_each. intros i _. apply Hrow.
    - simpl. by rewrite <- ?app_assoc. }
  by destruct (runs_written _ _ _ _ Hruns) as (_ & _ & ->).
Qed.

End RowContents.

Section RowsShowEntries.
Import StdoutPrinter.
Context `{Builtins}.

(** The cells of the first row with the widths of their columns. *)
Lemma first_row_cells host self w0 w1 w2 w3 w4 d0 c0 :
  widths self !! 0 = Some w0 → widths self !! 1 = Some w1 →
  widths self !! 2 = Some w2 → widths self !! 3 = Some w3 →
  (verbose self = true → widths self !! 4 = Some w4) →
  zip (print_items (verbose self) host d0 c0) (widths self)
  = [(str_ip (ip host), w0); (d0, w1); (c0, w2);
     (str_float (round (risk host) 4), w3)]
    ++ (if verbose self
        then [(from_option str_warning EmptyString (warnings host !! 0), w4)]
        else []).
Proof.
  intros Hw0 Hw1 Hw2 Hw3 Hw4. unfold print_items.
  destruct (widths self) as [|a [|b [|c [|d rest]]]]; simplify_eq/=.
  destruct (verbose self).
  - specialize (Hw4 eq_refl). destruct rest as [|e rest]; simplify_eq/=.
    by destruct (warnings host).
  - by destruct (warnings host).
Qed.

(** X10: the prints of [__print_host_in_table], in order: the opening
    bar; the cells of the first row, which are the address, the first
    domain, the first contact, the rounded risk and in verbose mode the
    first warning (or an empty text), each centred in the width of its
    own column; the end of the line; then for [i] from 1 to the number
    of continuation rows the five prints of row [i], which are a blank
    address cell, the [i]-th domain centred in the domain column or
    blanks, the [i]-th contact centred in the contact column or blanks,
    a blank risk cell, and the end of the line, in verbose mode behind
    the [i]-th warning centred in its column or blanks; and the colour
    reset.  No domain, contact or warning of the host is left out, and
    each is in the column of its kind. *)
Theorem rows_show_every_entry host color self w0 w1 w2 w3 w4 d0 c0 :
  widths self !! 0 = Some w0 → widths self !! 1 = Some w1 →
  widths self !! 2 = Some w2 → widths self !! 3 = Some w3 →
  (verbose self = true → widths self !! 4 = Some w4) →
  domains host !! 0 = Some d0 → contacts host !! 0 = Some c0 →
  written (__print_host_in_table host color self)
  = (color +:+ "|", EmptyString)
    :: ((λ iw, (YELLOW +:+ center iw.1 iw.2 +:+ "|", EmptyString))
          <$> ([(str_ip (ip host), w0); (d0, w1); (c0, w2);
                (str_float (round (risk host) 4), w3)]
               ++ (if verbose self
                   then [(from_option str_warning EmptyString
                            (warnings host !! 0), w4)]
                   else [])))
    ++ (EmptyString, LF)
    :: concat
         ((λ i,
             [("|" +:+ str_repeat " " w0 +:+ "|", EmptyString);
              (from_option (λ d, center d w1) (str_repeat " " w1)
                 (domains host !! i) +:+ "|", EmptyString);
              (from_option (λ c, center c w2) (str_repeat " " w2)
                 (contacts host !! i) +:+ "|", EmptyString);
              (str_repeat " " w3 +:+ "|", EmptyString);
              (if verbose self
               then from_option (λ x, center (str_warning x) w4)
                      (str_repeat " " w4) (warnings host !! i) +:+ "|"
               else EmptyString, LF)])
            <$> seq 1 (extra_rows (verbose self) host))
    ++ [(END, EmptyString)]
  ∧ (∀ i, i < length (domains host) ∨ i < length (contacts host)
          ∨ (verbose self = true ∧ i < length (warnings host)) →
          i ≤ extra_rows (verbose self) host).
Proof.
  intros Hw0 Hw1 Hw2 Hw3 Hw4 Hd Hc.
  assert (Hlen : 4 ≤ length (widths self)).
  { apply lookup_lt_Some in Hw3. lia. }
  assert (Hlenv : verbose self = true → 5 ≤ length (widths self)).
  { intros Hv. specialize (Hw4 Hv). apply lookup_lt_Some in Hw4. lia. }
  split.
  - rewrite (print_host_in_table_written host color self d0 c0 Hd Hc Hlen Hlenv).
    rewrite (first_row_cells host self w0 w1 w2 w3 w4 d0 c0) by done.
    do 3 f_equal. f_equal. f_equal.
    apply Forall_fmap_ext, Forall_forall. intros i _.
    rewrite (print_host_row_written host i self w0 w1 w2 w3) by
      (done || (intros Hv; rewrite (Hw4 Hv); by eexists)).
    destruct (verbose self); [|done]. by rewrite (Hw4 eq_refl).
  - intros i Hi. unfold extra_rows.
    destruct (verbose self); destruct Hi as [?|[?|[? ?]]]; try done; lia.
Qed.

End RowsShowEntries.

Lemma rows_show_every_entry_witness :
  StdoutPrinter.written
    (@StdoutPrinter.__print_host_in_table Scenario.plain_builtins
       Scenario.candidate_b StdoutPrinter.YELLOW Scenario.verbose_table) !! 8
  = Some (center "bb.example.org" 16 +:+ "|", EmptyString).
Proof.
  rewrite (proj1 (@rows_show_every_entry Scenario.plain_builtins
                    Scenario.candidate_b StdoutPrinter.YELLOW
                    Scenario.verbose_table 20 16 15 10 17
                    "b.example.org" "b@example.org"
                    eq_refl eq_refl eq_refl eq_refl (λ _, eq_refl)
                    eq_refl eq_refl)).
  reflexivity.
Defined.

(** ** Outside verbose mode the warnings play no part *)

Section IgnoredWarnings.
Import StdoutPrinter.
Context `{Builtins}.

Lemma keeps_quiet {A} (m : M A) : keeps m → quiet m.
Proof. intros Hk self Hv. destruct (Hk self) as (_ & -> & _). exact Hv. Qed.

Lemma agree_refl {A} (m : M A) : agree m m.
Proof. by intros self _. Qed.

Lemma agree_bind {A B} (m1 m2 : M A) (f1 f2 : A → M B) :
  agree m1 m2 → quiet m1 → (∀ a, agree (f1 a) (f2 a)) →
  agree (m1 ≫= f1) (m2 ≫= f2).
Proof.
  intros Hm Hq Hf self Hv. unfold mbind, M_bind. rewrite <- (Hm self Hv).
  specialize (Hq self Hv). destruct (m1 self) as [[[a|e] p] o]; [|done].
  unfold printer_after in Hq. simpl in Hq. by rewrite (Hf a p Hq).
Qed.

Lemma agree_get_self {B} (f1 f2 : Printer → M B) :
  (∀ a, verbose a = false → agree (f1 a) (f2 a)) →
  agree (get_self ≫= f1) (get_self ≫= f2).
Proof.
  intros Hf self Hv. unfold mbind, M_bind, get_self.
  by rewrite (Hf self Hv self Hv).
Qed.

Lemma agree_for_each {A} (l : list A) (body1 body2 : A → M unit) :
  (∀ x, agree (body1 x) (body2 x)) → (∀ x, quiet (body1 x)) →
  agree (for_each l body1) (for_each l body2).
Proof.
  intros Hbody Hq. induction l as [|x l IH]; simpl; [apply agree_refl|].
  apply agree_bind; [apply Hbody|apply Hq|]. intros _. exact IH.
Qed.

Lemma for_each_fmap {A B} (g : A → B) (l : list A) (body : B → M unit) self :
  for_each (g <$> l) body self = for_each l (λ x, body (g x)) self.
Proof.
  revert self. induction l as [|x l IH]; intros self; csimpl; [done|].
  unfold mbind, M_bind. destruct (body (g x) self) as [[[[]|e] p] o]; [|done].
  by rewrite IH.
Qed.

Lemma slice_to_fmap {A B} (g : A → B) (l : list A) stop :
  slice_to (g <$> l) stop = g <$> slice_to l stop.
Proof.
  unfold slice_to. destruct stop as [n|]; [|done].
  rewrite length_fmap. by destruct (0 <=? n)%Z; rewrite fmap_take.
Qed.

Lemma print_items_plain host d c :
  print_items false host d c
  = [str_ip (ip host); d; c; str_float (round (risk host) 4)].
Proof. unfold print_items. by destruct (warnings host). Qed.

Lemma agree_print_host_row host ws i :
  agree (print_host_row (set_warnings host ws) i) (print_host_row host i).
Proof.
  unfold print_host_row. apply agree_get_self. intros a Ha. rewrite Ha.
  apply agree_refl.
Qed.

Lemma agree_print_host_in_table host ws color :
  agree (__print_host_in_table (set_warnings host ws) color)
    (__print_host_in_table host color).
Proof.
  unfold __print_host_in_table.
  apply agree_bind; [apply agree_refl|apply keeps_quiet, keeps_print_end|].
  intros _. apply agree_get_self. intros a Ha. rewrite Ha.
  apply agree_bind; [apply agree_refl|apply keeps_quiet, keeps_getitem|].
  intros d.
  apply agree_bind; [apply agree_refl|apply keeps_quiet, keeps_getitem|].
  intros c. cbv zeta. rewrite !print_items_plain, !andb_false_r.
  apply agree_bind; [apply agree_refl| |].
  { apply keeps_quiet, keeps_for_each. intros ?. apply keeps_print_end. }
  intros _.
  apply agree_bind; [|apply keeps_quiet|intros _; apply agree_refl].
  - simpl.
    destruct (bool_decide (1 < length (domains host))
              || bool_decide (0 ≠ length (contacts host)) || false);
      [|apply agree_refl].
    apply agree_bind; [apply agree_refl|apply keeps_quiet, keeps_print|].
    intros _. apply agree_for_each.
    + intros i. apply agree_print_host_row.
    + intros i. apply keeps_quiet, keeps_print_host_row.
  - simpl.
    destruct (bool_decide (1 < length (domains host))
              || bool_decide (0 ≠ length (contacts host)) || false).
    + apply keeps_bind; [apply keeps_print|]. intros _.
      apply keeps_for_each. intros i. apply keeps_print_host_row.
    + apply keeps_print.
Qed.

Lemma agree_calc_column_widths_loop (f : Host → list Warning) acc host_list :
  agree (calc_column_widths_loop false acc
           ((λ host, set_warnings host (f host)) <$> host_list))
    (calc_column_widths_loop false acc host_list).
Proof.
  revert acc. induction host_list as [|host rest IH]; intros acc; csimpl;
    [apply agree_refl|].
  apply agree_bind; [|apply keeps_quiet|intros acc'; apply IH].
  - destruct acc as [[lc ld] lw]. apply agree_refl.
  - destruct acc as [[lc ld] lw]. unfold calc_column_widths_step. simpl.
    destruct (py_max String.length (domains host));
      [|apply keeps_bind; [apply keeps_raise|intros ?]].
    + apply keeps_bind; [apply keeps_ret|intros ?].
      destruct (py_max String.length (contacts host));
        (apply keeps_bind; [first [apply keeps_ret|apply keeps_raise]|intros ?]);
        apply keeps_ret.
    + destruct (py_max String.length (contacts host));
        (apply keeps_bind; [first [apply keeps_ret|apply keeps_raise]|intros ?]);
        apply keeps_ret.
Qed.

Lemma agree_calc_column_widths (f : Host → list Warning) host_list :
  agree (__calc_column_widths
           ((λ host, set_warnings host (f host)) <$> host_list))
    (__calc_column_widths host_list).
Proof.
  unfold __calc_column_widths. apply agree_get_self. intros a Ha. rewrite Ha.
  apply agree_bind; [apply agree_calc_column_widths_loop| |].
  - apply keeps_quiet, keeps_calc_column_widths_loop.
  - intros [[lc ld] lw]. apply agree_refl.
Qed.

(** X9: outside verbose mode [print_host_list] does not look at the
    warnings of the hosts: with other warnings on every host the
    outcome, the printer it leaves and everything it prints are the
    same. *)
Theorem print_host_list_ignores_warnings (f : Host → list Warning)
    host_list self :
  verbose self = false →
  print_host_list ((λ host, set_warnings host (f host)) <$> host_list) self
  = print_host_list host_list self.
Proof.
  intros Hv. revert self Hv. change (agree
    (print_host_list ((λ host, set_warnings host (f host)) <$> host_list))
    (print_host_list host_list)).
  unfold print_host_list. apply agree_get_self. intros a Ha. cbv zeta.
  apply agree_bind; [apply agree_refl| |].
  { intros self Hv. rewrite add_verbose_column_eq. unfold printer_after.
    simpl. by rewrite Hv. }
  intros _.
  apply agree_bind; [apply agree_calc_column_widths| |].
  { apply keeps_quiet, keeps_calc_column_widths. }
  intros _.
  apply agree_bind; [apply agree_refl| |].
  { apply keeps_quiet, keeps_print_host_list_header. }
  intros _.
  apply agree_bind; [apply agree_refl| |].
  { apply keeps_quiet, keeps_print_horizontal_separator. }
  intros _. rewrite slice_to_fmap. intros self Hv. rewrite for_each_fmap.
  revert self Hv. apply agree_for_each.
  - intros host. apply agree_bind; [apply agree_print_host_in_table| |].
    + apply keeps_quiet, keeps_print_host_in_table.
    + intros _. apply agree_refl.
  - intros host. apply keeps_quiet, keeps_bind.
    + apply keeps_print_host_in_table.
    + intros _. apply keeps_print_horizontal_separator.
Qed.

End IgnoredWarnings.

Lemma print_host_list_ignores_warnings_witness :
  @StdoutPrinter.print_host_list Scenario.plain_builtins
    ((λ host, set_warnings host []) <$> [Scenario.candidate_b])
    (StdoutPrinter.__init__ None false)
  = @StdoutPrinter.print_host_list Scenario.plain_builtins
      [Scenario.candidate_b] (StdoutPrinter.__init__ None false).
Proof.
  apply (@print_host_list_ignores_warnings Scenario.plain_builtins
           (λ _, []) [Scenario.candidate_b]
           (StdoutPrinter.__init__ None false) eq_refl).
Defined.

(** ** Columns left by earlier verbose calls *)

Section StaleColumns.
Import StdoutPrinter.
Context `{Builtins}.

Lemma printable_or_not host_list :
  Forall printable host_list
  ∨ ∃ host, host ∈ host_list ∧ (domains host = [] ∨ contacts host = []).
Proof.
  induction host_list as [|host rest [IH|(h & Hin & Hh)]].
  - left. constructor.
  - destruct (domains host) as [|d ds] eqn:Hd.
    { right. exists host. split; [left|by left]. }
    destruct (contacts host) as [|c cs] eqn:Hc.
    { right. exists host. split; [left|by right]. }
    left. constructor; [|done]. split; congruence.
  - right. exists h. split; [by right|done].
Qed.

(** The printer [print_host_list] leaves: the one after the verbose
    branch, sized for the list when the hosts are printable. *)
Lemma print_host_list_printer_after host_list self :
  columns_ok self →
  printer_after (print_host_list host_list self)
  = printer_after (add_verbose_column self)
  ∨ printer_after (print_host_list host_list self)
    = sized (printer_after (add_verbose_column self)) host_list.
Proof.
  intros Hok. destruct (printable_or_not host_list) as [Hall|(h & Hin & Hh)].
  - right. by rewrite (print_host_list_sized host_list self Hall Hok).
  - left. rewrite (print_host_list_raises host_list self h Hin Hh).
    by rewrite add_verbose_column_eq.
Qed.

Lemma print_attacked_host_printer_after host self :
  printer_after (print_attacked_host host self) = self.
Proof. done. Qed.

Lemma print_number_of_hosts_printer_after n d self :
  printer_after (print_number_of_hosts n d self) = self.
Proof.
  unfold print_number_of_hosts, mbind, M_bind, get_self. simpl.
  destruct (limit self) as [l|]; [|done]. by destruct (l <? n)%Z.
Qed.

(** X12: however a printer has been used, every width after the fifth
    is 0: of the SIMILARITIES columns that verbose calls have appended,
    only the first is ever given a width. *)
Theorem reachable_stale_columns self :
  reachable self → Forall (λ width, width = 0) (drop 5 (widths self)).
Proof.
  induction 1 as [l v|self l _ IH|self v _ IH|self host _ IH|self n d _ IH
                 |self hosts Hreach IH].
  - constructor.
  - exact IH.
  - exact IH.
  - by rewrite print_attacked_host_printer_after.
  - by rewrite print_number_of_hosts_printer_after.
  - assert (Hadd : Forall (λ width, width = 0)
                     (drop 5 (widths (printer_after (add_verbose_column self))))).
    { rewrite add_verbose_column_eq. unfold printer_after. simpl.
      destruct (verbose self); [|done]. simpl.
      rewrite drop_app. apply Forall_app. split; [done|].
      destruct (5 - length (widths self)) as [|n]; simpl.
      - by repeat constructor.
      - rewrite drop_nil. constructor. }
    destruct (print_host_list_printer_after hosts self
                (reachable_columns_ok self Hreach)) as [->| ->]; [done|].
    unfold sized. simpl.
    destruct (verbose (printer_after (add_verbose_column self))); simpl;
      by rewrite !drop_insert_lt by lia.
Qed.

End StaleColumns.

Lemma reachable_stale_columns_witness :
  Forall (λ width, width = 0)
    (drop 5 (StdoutPrinter.widths
               (@StdoutPrinter.call_print_host_list Scenario.plain_builtins
                  (StdoutPrinter.__init__ None true)
                  [[Scenario.candidate_b]; [Scenario.candidate_b]]))).
Proof.
  apply (@reachable_stale_columns Scenario.plain_builtins).
  apply (StdoutPrinter.reachable_print_host_list _ [Scenario.candidate_b]).
  apply (StdoutPrinter.reachable_print_host_list _ [Scenario.candidate_b]).
  apply StdoutPrinter.reachable_init.
Defined.
